(** * Tiktok-Order-Processor: the order-consolidation transform of src/index.tsx

    A shallow embedding of the pure helpers ([formatZip], [formatPhone],
    [calculateProduct], [findHeaderRow]) and of [processFile], followed by the
    properties of the specification that concern them.

    Conventions of the embedding.
    - A JavaScript string is the [string] of its UTF-8 bytes, so the Japanese
      keywords of the source are written as they are.  Substring search on
      UTF-8 bytes agrees with substring search on code points.
    - A cell of a sheet row is text or an integer number ([Cell]); a missing
      cell is [None] (JavaScript's [undefined]).  Numbers are mathematical
      integers: the model is exact for safe integers (below 2^53 in absolute
      value), and what is proved of the value of a number is stated for
      safe integers ([safeInteger]); fractional cells are outside it.
    - A row is the ordered list of its (column, cell) entries, in the order
      [Object.entries] enumerates them.
    - The React state that [processFile] updates is passed explicitly. *)

From Stdlib Require Import List String Ascii ZArith Lia Bool Arith DecimalString.
From Stdlib Require Decimal DecimalPos.
Import ListNotations.
Open Scope string_scope.
Open Scope Z_scope.

(** ** The JavaScript built-ins the source calls *)

Module JS.

Definition bytes (l : list nat) : string :=
  string_of_list_ascii (map ascii_of_nat l).

Definition LF : string := bytes [10%nat].

Definition rev (s : string) : string :=
  string_of_list_ascii (List.rev (list_ascii_of_string s)).

Definition code (c : ascii) : nat := nat_of_ascii c.

(** [s.includes(k)] *)
Fixpoint includes (s k : string) : bool :=
  if prefix k s then true
  else match s with
       | EmptyString => false
       | String _ r => includes r k
       end.

(** [s.toLowerCase()] on the ASCII letters; every other byte is kept.  The
    source only searches the result for keywords that are ASCII or caseless,
    and no other character lower-cases to a text that completes one of them,
    so these searches come out as in JavaScript. *)
Definition lowerChar (c : ascii) : ascii :=
  if ((65 <=? code c) && (code c <=? 90))%nat
  then ascii_of_nat (code c + 32) else c.

Fixpoint toLowerCase (s : string) : string :=
  match s with
  | EmptyString => EmptyString
  | String c r => String (lowerChar c) (toLowerCase r)
  end.

(** [\d] *)
Definition isDigit (c : ascii) : bool :=
  ((48 <=? code c) && (code c <=? 57))%nat.

Fixpoint allDigits (s : string) : bool :=
  match s with
  | EmptyString => true
  | String c r => isDigit c && allDigits r
  end.

(** [s.replace(/[^\d]/g, '')] *)
Fixpoint keepDigits (s : string) : string :=
  match s with
  | EmptyString => EmptyString
  | String c r => if isDigit c then String c (keepDigits r) else keepDigits r
  end.

(** [s.replace(/\(\+81\)/g, '')]: the five bytes of the marker are dropped
    wherever they occur, scanning from the left. *)
Fixpoint dropCountryCode (s : string) : string :=
  match s with
  | String "(" (String "+" (String "8" (String "1" (String ")" r)))) =>
      dropCountryCode r
  | String c r => String c (dropCountryCode r)
  | EmptyString => EmptyString
  end.

(** White space and line terminators of ECMAScript, as UTF-8: one byte
    (TAB, LF, VT, FF, CR, SP), two bytes (U+00A0) or three bytes (U+1680,
    U+2000..U+200A, U+2028, U+2029, U+202F, U+205F, U+3000, U+FEFF). *)
Definition isSpace1 (c : ascii) : bool :=
  (((9 <=? code c) && (code c <=? 13)) || (code c =? 32))%nat.

Definition isSpace2 (c1 c2 : ascii) : bool :=
  ((code c1 =? 194) && (code c2 =? 160))%nat.

Definition isSpace3 (c1 c2 c3 : ascii) : bool :=
  (((code c1 =? 225) && (code c2 =? 154) && (code c3 =? 128))
   || ((code c1 =? 226) && (code c2 =? 128)
       && (((128 <=? code c3) && (code c3 <=? 138))
           || (code c3 =? 168) || (code c3 =? 169) || (code c3 =? 175)))
   || ((code c1 =? 226) && (code c2 =? 129) && (code c3 =? 159))
   || ((code c1 =? 227) && (code c2 =? 128) && (code c3 =? 128))
   || ((code c1 =? 239) && (code c2 =? 187) && (code c3 =? 191)))%nat.

(** Strips leading white space; [fwd] tells whether the bytes are met in
    reading order or (for the end of a string) reversed. *)
Fixpoint strip (fwd : bool) (s : string) : string :=
  match s with
  | String c1 r1 =>
      if isSpace1 c1 then strip fwd r1
      else match r1 with
           | String c2 r2 =>
               if (if fwd then isSpace2 c1 c2 else isSpace2 c2 c1)
               then strip fwd r2
               else match r2 with
                    | String c3 r3 =>
                        if (if fwd then isSpace3 c1 c2 c3
                            else isSpace3 c3 c2 c1)
                        then strip fwd r3 else s
                    | EmptyString => s
                    end
           | EmptyString => s
           end
  | EmptyString => s
  end.

Definition trimStart (s : string) : string := strip true s.

(** [s.trim()] *)
Definition trim (s : string) : string :=
  rev (strip false (rev (trimStart s))).

(** [String(n)] for a safe integer [n] (below 2^53 in absolute value): its
    decimal digits.  Beyond that range JavaScript prints a rounded value,
    and an exponent from 1e21 on, which this definition does not follow. *)
Definition stringOfZ (n : Z) : string :=
  NilZero.string_of_int (Z.to_int n).

Definition digitVal (c : ascii) : Z := Z.of_nat (code c) - 48.

Fixpoint digitsValue (acc : Z) (s : string) : Z :=
  match s with
  | EmptyString => acc
  | String c r => digitsValue (10 * acc + digitVal c) r
  end.

Fixpoint takeDigits (s : string) : string :=
  match s with
  | String c r => if isDigit c then String c (takeDigits r) else EmptyString
  | EmptyString => EmptyString
  end.

(** [parseInt(s, 10)]; [None] is NaN.  The value is that of the digits; it
    is the value JavaScript returns as long as it is a safe integer (a
    larger one is rounded to a double there). *)
Definition parseInt (s : string) : option Z :=
  let s1 := trimStart s in
  let '(neg, s2) :=
    match s1 with
    | String "-" r => (true, r)
    | String "+" r => (false, r)
    | _ => (false, s1)
    end in
  match takeDigits s2 with
  | EmptyString => None
  | ds => Some (if neg : bool then - digitsValue 0 ds else digitsValue 0 ds)
  end.

(** [l.join(sep)] *)
Definition join (sep : string) (l : list string) : string := concat sep l.

(** A line terminator starts here: the [.] of a regular expression does
    not match it (LF, CR, U+2028, U+2029). *)
Definition lineTerminatorAt (s : string) : bool :=
  match s with
  | String c1 r1 =>
      ((code c1 =? 10) || (code c1 =? 13))%nat
      || match r1 with
         | String c2 (String c3 _) =>
             ((code c1 =? 226) && (code c2 =? 128)
              && ((code c3 =? 168) || (code c3 =? 169)))%nat
         | _ => false
         end
  | EmptyString => false
  end.

End JS.

(** ** Constants *)

Module FIXED_VALUES.
Definition deliveryMethod : Z := 9.
Definition labelType : Z := 1800800001.
Definition senderName : string := "AIRUPA物流センター".
Definition senderZip : string := "455-0065".
Definition senderAddress : string := "名古屋市港区本宮新町86".
Definition packetSize : Z := 20.
Definition serviceFee : Z := 0.
Definition packingFee : Z := 0.
End FIXED_VALUES.

(** ** Cells and rows *)

Inductive Cell : Type :=
| CStr (s : string)
| CNum (n : Z).

(** [undefined] is [None]. *)
Definition Value : Type := option Cell.

Definition Row : Type := list (string * Cell).

(** [row[k]] *)
Fixpoint prop (row : Row) (k : string) : Value :=
  match row with
  | [] => None
  | (k', v) :: r => if (k' =? k)%string then Some v else prop r k
  end.

(** [String(v)] *)
Definition String_ (v : Value) : string :=
  match v with
  | None => "undefined"
  | Some (CStr s) => s
  | Some (CNum n) => JS.stringOfZ n
  end.

(** Truthiness: [undefined], the empty string and 0 are falsy. *)
Definition truthy (v : Value) : bool :=
  match v with
  | None => false
  | Some (CStr s) => negb (s =? "")%string
  | Some (CNum n) => negb (n =? 0)
  end.

(** [String(v || "")] *)
Definition strOrEmpty (v : Value) : string :=
  if truthy v then String_ v else "".

(** ** Helper functions *)

Definition formatZip (zip : Value) : string :=
  let s := JS.keepDigits (String_ zip) in
  if (String.length s =? 7)%nat
  then substring 0 3 s ++ "-" ++ substring 3 4 s
  else String_ zip.

Definition formatPhone (phone : Value) : string :=
  JS.keepDigits (JS.dropCountryCode (String_ phone)).

(** The two captures of [name.match(re)], where [re] is anchored at both ends
    and reads: any characters, greedily (first capture); a literal asterisk;
    one or more digits (second capture).  The greedy part first tries to take
    the next character (which a line terminator forbids) and backs off to let
    the asterisk and the digits match all that remains. *)
Fixpoint matchPack (s : string) : option (string * string) :=
  match s with
  | EmptyString => None
  | String c r =>
      match (if JS.lineTerminatorAt s then None else matchPack r) with
      | Some (b, d) => Some (String c b, d)
      | None =>
          if (c =? "*")%char && negb (r =? "")%string && JS.allDigits r
          then Some (EmptyString, r) else None
      end
  end.

(** The arithmetic is that of the integers: it is the arithmetic of the
    source as long as the pack size, the quantity and their product are
    safe integers. *)
Definition calculateProduct (name : string) (quantity : Z) : string :=
  if (name =? "")%string then "Unknown*" ++ JS.stringOfZ quantity
  else
    match matchPack name with
    | Some (baseName, digits) =>
        match JS.parseInt digits with
        | Some packSize =>
            if quantity =? 1 then name
            else
              let total := packSize * quantity in
              baseName ++ "*" ++ JS.stringOfZ total
        | None => baseName ++ "*NaN"
        end
    | None => name ++ "*" ++ JS.stringOfZ quantity
    end.

(** ** Header detection *)

(** The signature of the known TikTok layout: order id in A, phone in AW. *)
Definition fixedSignature (row : Row) : bool :=
  let valA := JS.toLowerCase (strOrEmpty (prop row "A")) in
  let valAW := JS.toLowerCase (strOrEmpty (prop row "AW")) in
  (JS.includes valA "id" || JS.includes valA "注文")
  && (JS.includes valAW "phone" || JS.includes valAW "電話").

Definition keywords : list string :=
  ["電話番号"; "phone"; "telephone"; "注文ID"; "order id"; "orderid"].

(** [Object.values(row)] *)
Definition values (row : Row) : list Value :=
  map (fun e => Some (snd e)) row.

Definition matchCount (row : Row) : Z :=
  let rowValues := map (fun v => JS.toLowerCase (String_ v)) (values row) in
  fold_left
    (fun acc k =>
       if existsb (fun v => JS.includes v k) rowValues then acc + 1 else acc)
    keywords 0.

Definition keywordMatch (row : Row) : bool := 2 <=? matchCount row.

(** [jsonData[i]].  The source reads rows below [jsonData.length] only; the
    default row stands for an index it never uses. *)
Definition rowAt (jsonData : list Row) (i : nat) : Row := nth i jsonData [].

(** [for (let i = start; i < start + steps; i++) if (test(jsonData[i])) return i] *)
Fixpoint firstFrom (test : Row -> bool) (jsonData : list Row)
         (i steps : nat) : option nat :=
  match steps with
  | O => None
  | S k => if test (rowAt jsonData i) then Some i
           else firstFrom test jsonData (S i) k
  end.

Definition findHeaderRow (jsonData : list Row) : Z :=
  let bound := Nat.min (List.length jsonData) 20 in
  match firstFrom fixedSignature jsonData 0 bound with
  | Some i => Z.of_nat i
  | None =>
      match firstFrom keywordMatch jsonData 0 bound with
      | Some i => Z.of_nat i
      | None => -1
      end
  end.

(** ** Column mapping *)

Module Field.
Inductive t : Type :=
| phone | zip | prefecture | city | town | addr1 | addr2 | name | orderId.

Definition eqb (a b : t) : bool :=
  match a, b with
  | phone, phone | zip, zip | prefecture, prefecture | city, city
  | town, town | addr1, addr1 | addr2, addr2 | name, name
  | orderId, orderId => true
  | _, _ => false
  end.

Definition toString (f : t) : string :=
  match f with
  | phone => "phone" | zip => "zip" | prefecture => "prefecture"
  | city => "city" | town => "town" | addr1 => "addr1" | addr2 => "addr2"
  | name => "name" | orderId => "orderId"
  end.
End Field.

(** [columnMap]: a field without an entry is [undefined]. *)
Definition ColumnMap : Type := Field.t -> option string.

Definition emptyMap : ColumnMap := fun _ => None.

(** [columnMap[field] = key] *)
Definition assign (columnMap : ColumnMap) (field : Field.t) (key : string)
  : ColumnMap :=
  fun f => if Field.eqb f field then Some key else columnMap f.

Definition isTikTokFormat (headerRow : Row) : bool :=
  (JS.includes (JS.toLowerCase (strOrEmpty (prop headerRow "A"))) "id"
   || JS.includes (strOrEmpty (prop headerRow "A")) "注文")
  && (JS.includes (JS.toLowerCase (strOrEmpty (prop headerRow "AW"))) "phone"
      || JS.includes (strOrEmpty (prop headerRow "AW")) "電話").

Definition tiktokMap : ColumnMap :=
  let m := assign emptyMap Field.orderId "A" in
  let m := assign m Field.name "AL" in
  let m := assign m Field.zip "AP" in
  let m := assign m Field.prefecture "AQ" in
  let m := assign m Field.city "AR" in
  let m := assign m Field.town "AS" in
  let m := assign m Field.addr1 "AT" in
  let m := assign m Field.addr2 "AU" in
  assign m Field.phone "AW".

Definition targetHeaders : list (Field.t * list string) :=
  [ (Field.phone, ["電話番号"; "telephone"; "phone"]);
    (Field.zip, ["郵便番号"; "zip"; "postal"]);
    (Field.prefecture, ["都道府県"]);
    (Field.city, ["市区町村"]);
    (Field.town, ["町名"]);
    (Field.addr1, ["詳細住所1"]);
    (Field.addr2, ["詳細住所2"]);
    (Field.name, ["受取人"; "name"; "recipient"]);
    (Field.orderId, ["注文ID"; "order id"; "orderid"]) ].

(** [keywords.some(k => valStr.includes(k))] *)
Definition mentions (valStr : string) (keywords : list string) : bool :=
  existsb (fun k => JS.includes valStr k) keywords.

(** The body of the [forEach] over the header's entries. *)
Definition mapHeaderCell (columnMap : ColumnMap) (entry : string * Cell)
  : ColumnMap :=
  let '(key, value) := entry in
  let valStr := JS.toLowerCase (JS.trim (String_ (Some value))) in
  fold_left
    (fun m (target : Field.t * list string) =>
       let '(field, keywords) := target in
       if mentions valStr keywords then assign m field key else m)
    targetHeaders columnMap.

Definition genericMap (headerRow : Row) : ColumnMap :=
  fold_left mapHeaderCell headerRow emptyMap.

Definition required : list Field.t :=
  [Field.phone; Field.zip; Field.name; Field.orderId].

(** [!columnMap[k]] *)
Definition unresolved (columnMap : ColumnMap) (k : Field.t) : bool :=
  match columnMap k with
  | None => true
  | Some c => (c =? "")%string
  end.

Definition missing (columnMap : ColumnMap) : list Field.t :=
  filter (unresolved columnMap) required.

(** [row[columnMap.field]]: an unmapped field indexes with [undefined],
    which reads the property named "undefined". *)
Definition cell (row : Row) (columnMap : ColumnMap) (field : Field.t) : Value :=
  prop row (match columnMap field with Some c => c | None => "undefined" end).

(** ** Shipment groups *)

Module Receiver.
Record t : Type := { name : string; phone : string; zip : string; address : string }.
End Receiver.

Module ProcessedOrder.
(** [orderIds] is a JavaScript [Set]: its members in insertion order. *)
Record t : Type :=
  { id : string;
    orderIds : list string;
    receiver : Receiver.t;
    products : list string }.
End ProcessedOrder.

(** [new Set(...)] and [set.add(x)] *)
Definition setAdd (s : list string) (x : string) : list string :=
  if existsb (String.eqb x) s then s else s ++ [x].

(** [orderMap], a JavaScript [Map]: its entries in insertion order. *)
Definition OrderMap : Type := list (string * ProcessedOrder.t).

Definition mapHas (orderMap : OrderMap) (key : string) : bool :=
  existsb (fun e => (fst e =? key)%string) orderMap.

Fixpoint mapGet (orderMap : OrderMap) (key : string) : option ProcessedOrder.t :=
  match orderMap with
  | [] => None
  | (k, g) :: r => if (k =? key)%string then Some g else mapGet r key
  end.

(** The [else] branch of the merge: the group stored under [key] is mutated
    in place. *)
Fixpoint mapModify (orderMap : OrderMap) (key : string)
         (f : ProcessedOrder.t -> ProcessedOrder.t) : OrderMap :=
  match orderMap with
  | [] => []
  | (k, g) :: r =>
      if (k =? key)%string then (k, f g) :: r
      else (k, g) :: mapModify r key f
  end.

(** ** The row loop *)

(** What the loop body computes from a row once it is counted. *)
Definition addrParts (row : Row) (columnMap : ColumnMap) : list string :=
  let parts :=
    map (fun s => JS.trim (String_ s))
        (filter truthy
                [cell row columnMap Field.prefecture;
                 cell row columnMap Field.city;
                 cell row columnMap Field.town;
                 cell row columnMap Field.addr1]) in
  let rawAddr2 := cell row columnMap Field.addr2 in
  if truthy rawAddr2 && negb (JS.trim (String_ rawAddr2) =? "")%string
  then (parts ++ [("(" ++ JS.trim (String_ rawAddr2) ++ ")")%string])%list
  else parts.

Definition fullAddressOf (row : Row) (columnMap : ColumnMap) : string :=
  JS.join "" (addrParts row columnMap).

(** [parseInt(rawQuantity || "0", 10)]; [None] is NaN.  For a numeric cell
    this is the cell's number when that is a safe integer. *)
Definition quantityOf (row : Row) : option Z :=
  let rawQuantity := prop row "J" in
  JS.parseInt (if truthy rawQuantity then String_ rawQuantity else "0").

(** [quantity > 0], false for NaN *)
Definition positive (quantity : option Z) : bool :=
  match quantity with
  | Some q => 0 <? q
  | None => false
  end.

Definition productNameOf (row : Row) : string :=
  JS.trim (strOrEmpty (prop row "G")).

Definition mergeKeyOf (cleanPhone cleanZip fullAddress cleanName : string)
  : string :=
  cleanPhone ++ "|" ++ cleanZip ++ "|" ++ fullAddress ++ "|" ++ cleanName.

(** One iteration of the loop of step 2; the state is the map and
    [processedLinesCount]. *)
Definition processRow (headerRow : Row) (columnMap : ColumnMap)
           (st : OrderMap * Z) (row : Row) : OrderMap * Z :=
  let '(orderMap, processedLinesCount) := st in
  let rawOrderId := cell row columnMap Field.orderId in
  if negb (truthy rawOrderId) then st
  else
    let headerName := JS.trim (strOrEmpty (cell headerRow columnMap Field.orderId)) in
    if (JS.trim (String_ rawOrderId) =? headerName)%string then st
    else
      let rawPhone := cell row columnMap Field.phone in
      let cleanPhone := formatPhone rawPhone in
      if (cleanPhone =? "")%string || (String.length cleanPhone <? 8)%nat then st
      else if (String.length (JS.trim (String_ rawOrderId)) =? 0)%nat then st
      else
        let processedLinesCount := processedLinesCount + 1 in
        let rawZip := cell row columnMap Field.zip in
        let rawName := cell row columnMap Field.name in
        let fullAddress := fullAddressOf row columnMap in
        let cleanZip := formatZip rawZip in
        let cleanName := JS.trim (String_ rawName) in
        let cleanOrderId := JS.trim (String_ rawOrderId) in
        let productName := productNameOf row in
        match quantityOf row with
        | Some quantity =>
            if 0 <? quantity then
              let finalProductString := calculateProduct productName quantity in
              let mergeKey := mergeKeyOf cleanPhone cleanZip fullAddress cleanName in
              if negb (mapHas orderMap mergeKey) then
                ((orderMap ++
                   [(mergeKey,
                     {| ProcessedOrder.id := mergeKey;
                        ProcessedOrder.orderIds := [cleanOrderId];
                        ProcessedOrder.receiver :=
                          {| Receiver.name := cleanName;
                             Receiver.phone := cleanPhone;
                             Receiver.zip := cleanZip;
                             Receiver.address := fullAddress |};
                        ProcessedOrder.products := [finalProductString] |})])%list,
                 processedLinesCount)
              else
                (mapModify orderMap mergeKey
                   (fun existing =>
                      {| ProcessedOrder.id := ProcessedOrder.id existing;
                         ProcessedOrder.orderIds :=
                           setAdd (ProcessedOrder.orderIds existing) cleanOrderId;
                         ProcessedOrder.receiver := ProcessedOrder.receiver existing;
                         ProcessedOrder.products :=
                           (ProcessedOrder.products existing
                            ++ [finalProductString])%list |}),
                 processedLinesCount)
            else (orderMap, processedLinesCount)
        | None => (orderMap, processedLinesCount)
        end.

(** [for (let i = headerIndex + 1; i < jsonData.length; i++)] *)
Definition processRows (headerRow : Row) (columnMap : ColumnMap)
           (rows : list Row) (st : OrderMap * Z) : OrderMap * Z :=
  fold_left (processRow headerRow columnMap) rows st.

(** ** Output rows and logs *)

Module Log.
Inductive type : Type := info | merge | error | warning.
Record Entry : Type := { kind : type; message : string }.
End Log.

Definition LogEntry : Type := Log.Entry.

Module RowData.
Record t : Type :=
  { A : Z; B : Z; C : Z; D : string; E : string; F : string; G : string;
    H : string; I : string; J : string; K : string; L : string; M : string;
    N : string; O : string; P : string; Q : string; R : Z; S : string;
    T : Z; U : Z; V : string }.
End RowData.

Definition mergeMessage (group : ProcessedOrder.t) : string :=
  let orderIdList := ProcessedOrder.orderIds group in
  "MERGED: " ++ Receiver.name (ProcessedOrder.receiver group)
  ++ " has " ++ JS.stringOfZ (Z.of_nat (List.length orderIdList))
  ++ " orders combined. IDs: " ++ JS.join ", " orderIdList.

Definition rowDataOf (sequence : Z) (group : ProcessedOrder.t) : RowData.t :=
  {| RowData.A := sequence;
     RowData.B := FIXED_VALUES.deliveryMethod;
     RowData.C := FIXED_VALUES.labelType;
     RowData.D := "";
     RowData.E := "";
     RowData.F := Receiver.phone (ProcessedOrder.receiver group);
     RowData.G := Receiver.zip (ProcessedOrder.receiver group);
     RowData.H := Receiver.address (ProcessedOrder.receiver group);
     RowData.I := Receiver.name (ProcessedOrder.receiver group);
     RowData.J := "";
     RowData.K := "";
     RowData.L := "";
     RowData.M := "";
     RowData.N := FIXED_VALUES.senderZip;
     RowData.O := FIXED_VALUES.senderAddress;
     RowData.P := FIXED_VALUES.senderName;
     RowData.Q := JS.join JS.LF (ProcessedOrder.products group);
     RowData.R := FIXED_VALUES.packetSize;
     RowData.S := "";
     RowData.T := FIXED_VALUES.serviceFee;
     RowData.U := FIXED_VALUES.packingFee;
     RowData.V := JS.join JS.LF (ProcessedOrder.orderIds group) |}.

(** The state of the [forEach] of step 3. *)
Record Emit : Type :=
  { outputRows : list RowData.t;
    logsToAppend : list LogEntry;
    sequence : Z;
    mergeEventCount : Z }.

Definition emitGroup (acc : Emit) (entry : string * ProcessedOrder.t) : Emit :=
  let group := snd entry in
  let orderIdList := ProcessedOrder.orderIds group in
  let merged := (1 <? List.length orderIdList)%nat in
  {| outputRows := (outputRows acc ++ [rowDataOf (sequence acc) group])%list;
     logsToAppend :=
       if merged
       then (logsToAppend acc
             ++ [{| Log.kind := Log.merge; Log.message := mergeMessage group |}])%list
       else logsToAppend acc;
     sequence := sequence acc + 1;
     mergeEventCount :=
       if merged then mergeEventCount acc + 1 else mergeEventCount acc |}.

Definition generateOutput (orderMap : OrderMap) : Emit :=
  fold_left emitGroup orderMap
            {| outputRows := []; logsToAppend := [];
               sequence := 1; mergeEventCount := 0 |}.

(** ** The workbook *)

Inductive OutCell : Type :=
| ONum (n : Z)
| OStr (s : string).

Definition headerRowValues : list string :=
  ["序号"; "配送方法"; "送り状種類"; "伝票番号"; "送料"; "電話番号"; "郵便番号";
   "住所"; "氏名"; "お届け希望日"; "時間帯指定"; "出荷予定日";
   "ご依頼主電話番号"; "ご依頼主郵便番号"; "ご依頼主住所1"; "ご依頼主名"; "品名";
   "ゆうパケット専用サイズ欄"; "注意写真"; "代引金額"; "梱包資材費"; "記事"].

(** [[r.A, r.B, ..., r.V]] *)
Definition toArray (r : RowData.t) : list OutCell :=
  [ONum (RowData.A r); ONum (RowData.B r); ONum (RowData.C r);
   OStr (RowData.D r); OStr (RowData.E r); OStr (RowData.F r);
   OStr (RowData.G r); OStr (RowData.H r); OStr (RowData.I r);
   OStr (RowData.J r); OStr (RowData.K r); OStr (RowData.L r);
   OStr (RowData.M r); OStr (RowData.N r); OStr (RowData.O r);
   OStr (RowData.P r); OStr (RowData.Q r); ONum (RowData.R r);
   OStr (RowData.S r); ONum (RowData.T r); ONum (RowData.U r);
   OStr (RowData.V r)].

Definition wsDataOf (rows : list RowData.t) : list (list OutCell) :=
  [[]; []; []; map OStr headerRowValues] ++ map toArray rows.

Record WorkBook : Type :=
  { sheetName : string;
    wsData : list (list OutCell);
    cols : list Z }.

Definition newWorkbook (rows : list RowData.t) : WorkBook :=
  {| sheetName := "Sheet1";
     wsData := wsDataOf rows;
     cols := [5; 10; 15; 10; 5; 15; 10; 40; 15; 10; 10; 10; 15; 15; 30; 20;
              40; 10; 10; 10; 10; 20] |}.

(** ** The component state and processFile *)

Record Stats : Type :=
  { totalLines : Z; validOrders : Z; mergedGroups : Z }.

Record AppState : Type :=
  { logs : list LogEntry;
    isProcessing : bool;
    processedWorkbook : option WorkBook;
    stats : Stats;
    hasMerges : bool }.

Definition setLogs (f : list LogEntry -> list LogEntry) (st : AppState) : AppState :=
  {| logs := f (logs st); isProcessing := isProcessing st;
     processedWorkbook := processedWorkbook st; stats := stats st;
     hasMerges := hasMerges st |}.

Definition setIsProcessing (b : bool) (st : AppState) : AppState :=
  {| logs := logs st; isProcessing := b;
     processedWorkbook := processedWorkbook st; stats := stats st;
     hasMerges := hasMerges st |}.

Definition setProcessedWorkbook (w : option WorkBook) (st : AppState) : AppState :=
  {| logs := logs st; isProcessing := isProcessing st;
     processedWorkbook := w; stats := stats st; hasMerges := hasMerges st |}.

Definition setStats (s : Stats) (st : AppState) : AppState :=
  {| logs := logs st; isProcessing := isProcessing st;
     processedWorkbook := processedWorkbook st; stats := s;
     hasMerges := hasMerges st |}.

Definition setHasMerges (b : bool) (st : AppState) : AppState :=
  {| logs := logs st; isProcessing := isProcessing st;
     processedWorkbook := processedWorkbook st; stats := stats st;
     hasMerges := b |}.

(** A file was chosen: everything but the processing flag is reset. *)
Definition handleFileUpload (st : AppState) : AppState :=
  let st := setProcessedWorkbook None st in
  let st := setLogs (fun _ => []) st in
  let st := setStats {| totalLines := 0; validOrders := 0; mergedGroups := 0 |} st in
  setHasMerges false st.

Definition logOf (k : Log.type) (m : string) : LogEntry :=
  {| Log.kind := k; Log.message := m |}.

(** The column map chosen for a header row. *)
Definition columnMapOf (headerRow : Row) : ColumnMap :=
  if isTikTokFormat headerRow then tiktokMap else genericMap headerRow.

(** Step 2 for a header found at [headerIndex]: the groups and
    [processedLinesCount]. *)
Definition consolidate (jsonData : list Row) (headerIndex : nat) : OrderMap * Z :=
  let headerRow := rowAt jsonData headerIndex in
  processRows headerRow (columnMapOf headerRow)
              (skipn (S headerIndex) jsonData) ([], 0).

Definition missingMessage (headerRow : Row) : string :=
  "Missing required columns: "
  ++ JS.join ", " (map Field.toString (missing (columnMapOf headerRow)))
  ++ ". Format detected: "
  ++ (if isTikTokFormat headerRow then "Standard TikTok" else "Generic").

Definition warningMessage (processedLinesCount totalGroups : Z) : string :=
  "⚠️ ATTENTION: " ++ JS.stringOfZ (processedLinesCount - totalGroups)
  ++ " orders were merged into existing shipments.".

Definition infoMessage (processedLinesCount : Z) : string :=
  "✅ " ++ JS.stringOfZ processedLinesCount
  ++ " orders processed. No merges required.".

(** How the [try] block ends. *)
Inductive Completion : Type :=
| Normal
| Thrown (message : string).

Definition tryBlock (st : AppState) (jsonData : list Row) : AppState * Completion :=
  if (List.length jsonData <? 2)%nat
  then (st, Thrown "File appears to be empty or invalid format.")
  else
    let headerIndex := findHeaderRow jsonData in
    if headerIndex =? -1
    then (st, Thrown "Could not find a valid header row (looking for 'Phone', 'Order ID').")
    else
      let headerRow := rowAt jsonData (Z.to_nat headerIndex) in
      if (0 <? List.length (missing (columnMapOf headerRow)))%nat
      then (st, Thrown (missingMessage headerRow))
      else
        let '(orderMap, processedLinesCount) :=
          consolidate jsonData (Z.to_nat headerIndex) in
        let out := generateOutput orderMap in
        let totalGroups := Z.of_nat (List.length (outputRows out)) in
        let isMerged := totalGroups <? processedLinesCount in
        let st := setHasMerges isMerged st in
        let st := setStats {| totalLines := processedLinesCount;
                              validOrders := processedLinesCount;
                              mergedGroups := totalGroups |} st in
        let st :=
          if isMerged
          then setLogs (fun prev =>
                          [logOf Log.warning
                                 (warningMessage processedLinesCount totalGroups)]
                            ++ logsToAppend out ++ prev)%list st
          else setLogs (fun prev =>
                          [logOf Log.info (infoMessage processedLinesCount)]
                            ++ prev)%list st in
        if (List.length (outputRows out) =? 0)%nat
        then
          let st := setLogs (fun prev =>
                               prev ++ [logOf Log.error
                                  "No valid orders found to export. Please check the file format."])%list
                            st in
          (setIsProcessing false st, Normal)
        else
          let st := setProcessedWorkbook (Some (newWorkbook (outputRows out))) st in
          let st := setLogs (fun prev =>
                               prev ++ [logOf Log.info
                                  "Processing complete. Ready to download."])%list
                            st in
          (st, Normal).

(** [processFile], from the rows [sheet_to_json] returned. *)
Definition processFile (st : AppState) (jsonData : list Row) : AppState :=
  let st := setIsProcessing true st in
  let st := setLogs (fun _ => []) st in
  let st := setHasMerges false st in
  let st :=
    match tryBlock st jsonData with
    | (st, Normal) => st
    | (st, Thrown message) =>
        setLogs (fun prev =>
                   prev ++ [logOf Log.error ("Processing failed: " ++ message)])%list
                st
    end in
  setIsProcessing false st.

Definition initialState : AppState :=
  {| logs := []; isProcessing := false; processedWorkbook := None;
     stats := {| totalLines := 0; validOrders := 0; mergedGroups := 0 |};
     hasMerges := false |}.

(** [s.padStart(targetLength, pad)] for a pad of one character. *)
Definition padStart (targetLength : nat) (pad : ascii) (s : string) : string :=
  string_of_list_ascii (repeat pad (targetLength - String.length s)) ++ s.

(** [downloadFile], given the month ([getMonth()], from 0) and the day of
    the month ([getDate()]) of the current date: the file written, under
    which name, if any. *)
Definition downloadFile (processedWorkbook : option WorkBook)
           (getMonth getDate : Z) : option (string * WorkBook) :=
  match processedWorkbook with
  | None => None
  | Some workbook =>
      let month := padStart 2 "0" (JS.stringOfZ (getMonth + 1)) in
      let day := padStart 2 "0" (JS.stringOfZ getDate) in
      let filename := "邮局小包-Capypie" ++ month ++ "." ++ day ++ ".xlsx" in
      Some (filename, workbook)
  end.

(** * Predicates of the specification and sample tables *)

(** The form the specification describes for a product name: a base, a
    literal asterisk and a trailing integer. *)
Definition packForm (name base digits : string) : Prop :=
  name = base ++ "*" ++ digits /\ digits <> "" /\ JS.allDigits digits = true.

(** Some line terminator occurs in [s]. *)
Fixpoint hasLineTerminator (s : string) : bool :=
  match s with
  | EmptyString => false
  | String _ r => JS.lineTerminatorAt s || hasLineTerminator r
  end.

(** The keyword list of a semantic field. *)
Definition keywordsFor (field : Field.t) : list string :=
  match find (fun t => Field.eqb field (fst t)) targetHeaders with
  | Some t => snd t
  | None => []
  end.

(** The header cell [value] names [field]: its trimmed, lower-cased text
    contains one of the field's keywords. *)
Definition cellMatches (field : Field.t) (value : Cell) : bool :=
  mentions (JS.toLowerCase (JS.trim (String_ (Some value)))) (keywordsFor field).

(** The normalized fields of a data row under a column map. *)
Definition cleanOrderIdOf (columnMap : ColumnMap) (row : Row) : string :=
  JS.trim (String_ (cell row columnMap Field.orderId)).

Definition cleanPhoneOf (columnMap : ColumnMap) (row : Row) : string :=
  formatPhone (cell row columnMap Field.phone).

Definition cleanZipOf (columnMap : ColumnMap) (row : Row) : string :=
  formatZip (cell row columnMap Field.zip).

Definition cleanNameOf (columnMap : ColumnMap) (row : Row) : string :=
  JS.trim (String_ (cell row columnMap Field.name)).

Definition keyOf (columnMap : ColumnMap) (row : Row) : string :=
  mergeKeyOf (cleanPhoneOf columnMap row) (cleanZipOf columnMap row)
             (fullAddressOf row columnMap) (cleanNameOf columnMap row).

(** The product description of a row with a quantity. *)
Definition productOf (row : Row) : string :=
  match quantityOf row with
  | Some quantity => calculateProduct (productNameOf row) quantity
  | None => ""
  end.

(** The row passes the first four skip conditions of the row validator:
    it is counted in [processedLinesCount]. *)
Definition counted (headerRow : Row) (columnMap : ColumnMap) (row : Row) : bool :=
  truthy (cell row columnMap Field.orderId)
  && negb (cleanOrderIdOf columnMap row
           =? JS.trim (strOrEmpty (cell headerRow columnMap Field.orderId)))%string
  && negb ((cleanPhoneOf columnMap row =? "")%string
           || (String.length (cleanPhoneOf columnMap row) <? 8)%nat)
  && negb (String.length (cleanOrderIdOf columnMap row) =? 0)%nat.

(** The row passes all five skip conditions. *)
Definition validated (headerRow : Row) (columnMap : ColumnMap) (row : Row) : bool :=
  counted headerRow columnMap row && positive (quantityOf row).

(** The group a validated row opens. *)
Definition freshGroup (columnMap : ColumnMap) (row : Row) : ProcessedOrder.t :=
  {| ProcessedOrder.id := keyOf columnMap row;
     ProcessedOrder.orderIds := [cleanOrderIdOf columnMap row];
     ProcessedOrder.receiver :=
       {| Receiver.name := cleanNameOf columnMap row;
          Receiver.phone := cleanPhoneOf columnMap row;
          Receiver.zip := cleanZipOf columnMap row;
          Receiver.address := fullAddressOf row columnMap |};
     ProcessedOrder.products := [productOf row] |}.

(** The group after it took one more validated row. *)
Definition absorb (columnMap : ColumnMap) (row : Row) (existing : ProcessedOrder.t)
  : ProcessedOrder.t :=
  {| ProcessedOrder.id := ProcessedOrder.id existing;
     ProcessedOrder.orderIds :=
       setAdd (ProcessedOrder.orderIds existing) (cleanOrderIdOf columnMap row);
     ProcessedOrder.receiver := ProcessedOrder.receiver existing;
     ProcessedOrder.products :=
       (ProcessedOrder.products existing ++ [productOf row])%list |}.

(** The map after a validated row. *)
Definition place (columnMap : ColumnMap) (orderMap : OrderMap) (row : Row) : OrderMap :=
  if mapHas orderMap (keyOf columnMap row)
  then mapModify orderMap (keyOf columnMap row) (absorb columnMap row)
  else (orderMap ++ [(keyOf columnMap row, freshGroup columnMap row)])%list.

(** The validated rows of one merge key, in row order. *)
Definition rowsFor (headerRow : Row) (columnMap : ColumnMap) (key : string)
           (rows : list Row) : list Row :=
  filter (fun r => validated headerRow columnMap r
                   && (keyOf columnMap r =? key)%string) rows.

(** The order-id cell is empty or holds white space only. *)
Definition blankOrderId (columnMap : ColumnMap) (row : Row) : Prop :=
  match cell row columnMap Field.orderId with
  | None => True
  | Some c => JS.trim (String_ (Some c)) = ""
  end.

(** The rows the skip-correctness property speaks of: no positive quantity,
    fewer than 8 phone digits, or a blank order id. *)
Definition skippable (columnMap : ColumnMap) (row : Row) : Prop :=
  (forall quantity, quantityOf row = Some quantity -> quantity <= 0)
  \/ (String.length (cleanPhoneOf columnMap row) < 8)%nat
  \/ blankOrderId columnMap row.

(** Sample rows in the fixed TikTok layout. *)
Definition tiktokHeader : Row :=
  [("A", CStr "Order ID"); ("AW", CStr "Phone #")].

Definition order (orderId product : string) (quantity : Z)
           (name zip prefecture phone : string) : Row :=
  [("A", CStr orderId); ("G", CStr product); ("J", CNum quantity);
   ("AL", CStr name); ("AP", CStr zip); ("AQ", CStr prefecture);
   ("AW", CStr phone)].

(** The group of a merge key, told from the rows alone: its first validated
    row opens it and the later ones are absorbed in row order. *)
Definition groupFor (headerRow : Row) (columnMap : ColumnMap) (key : string)
           (rows : list Row) : option ProcessedOrder.t :=
  match rowsFor headerRow columnMap key rows with
  | [] => None
  | r :: rs =>
      Some (fold_left (fun g r' => absorb columnMap r' g) rs
                      (freshGroup columnMap r))
  end.

(** Two orders for one recipient whose zip and address cells differ but
    spell the same text around the separator of the merge key. *)
Definition collisionTable : list Row :=
  [tiktokHeader;
   order "o1" "Box*4" 1 "Sato" "1|2" "3" "09012345678";
   order "o2" "Box*4" 2 "Sato" "1" "2|3" "09012345678"].

(** Two rows of one recipient that repeat the same order id. *)
Definition duplicateTable : list Row :=
  [tiktokHeader;
   order "o1" "Box*4" 1 "Sato" "1234567" "Tokyo" "09012345678";
   order "o1" "Box*4" 2 "Sato" "1234567" "Tokyo" "09012345678"].

(** The output rows of a list of groups, numbered from [sequence]. *)
Fixpoint rowsFrom (sequence : Z) (groups : list ProcessedOrder.t)
  : list RowData.t :=
  match groups with
  | [] => []
  | g :: r => rowDataOf sequence g :: rowsFrom (sequence + 1) r
  end.

(** The merge entries of a map: one for each group with more than one
    order id, in map order. *)
Definition mergeLogs (orderMap : OrderMap) : list LogEntry :=
  map (fun g => logOf Log.merge (mergeMessage g))
      (filter (fun g => (1 <? List.length (ProcessedOrder.orderIds g))%nat)
              (map snd orderMap)).

(** The steps before the row loop succeed, with the header at this index. *)
Definition located (jsonData : list Row) : option nat :=
  if (List.length jsonData <? 2)%nat then None
  else if findHeaderRow jsonData =? -1 then None
  else if (0 <? List.length
                  (missing (columnMapOf
                              (rowAt jsonData (Z.to_nat (findHeaderRow jsonData))))))%nat
       then None
       else Some (Z.to_nat (findHeaderRow jsonData)).

(** The message of the exception thrown before the row loop. *)
Definition thrownMessage (jsonData : list Row) : string :=
  if (List.length jsonData <? 2)%nat
  then "File appears to be empty or invalid format."
  else if findHeaderRow jsonData =? -1
       then "Could not find a valid header row (looking for 'Phone', 'Order ID')."
       else missingMessage (rowAt jsonData (Z.to_nat (findHeaderRow jsonData))).

Definition completionEntry : LogEntry :=
  logOf Log.info "Processing complete. Ready to download.".

Definition noOrdersEntry : LogEntry :=
  logOf Log.error "No valid orders found to export. Please check the file format.".

(** The summary entry of a run with [count] counted rows and [groups]
    groups. *)
Definition summaryEntry (count groups : Z) : LogEntry :=
  if groups <? count
  then logOf Log.warning (warningMessage count groups)
  else logOf Log.info (infoMessage count).

(** The state a run leaves once the row loop has produced its groups and
    its count. *)
Definition finished (st : AppState) (result : OrderMap * Z) : AppState :=
  let '(orderMap, count) := result in
  let groups := Z.of_nat (List.length orderMap) in
  {| logs :=
       (summaryEntry count groups
          :: (if groups <? count then mergeLogs orderMap else [])
          ++ [if (List.length orderMap =? 0)%nat
              then noOrdersEntry else completionEntry])%list;
     isProcessing := false;
     processedWorkbook :=
       if (List.length orderMap =? 0)%nat then processedWorkbook st
       else Some (newWorkbook (rowsFrom 1 (map snd orderMap)));
     stats := {| totalLines := count; validOrders := count;
                 mergedGroups := groups |};
     hasMerges := groups <? count |}.

(** The state a run leaves when an exception was thrown. *)
Definition failed (st : AppState) (message : string) : AppState :=
  {| logs := [logOf Log.error ("Processing failed: " ++ message)];
     isProcessing := false;
     processedWorkbook := processedWorkbook st;
     stats := stats st;
     hasMerges := false |}.

(** The cells of the output row of a group, as the source lays them out:
    four blank cells stand between the name and the sender's zip. *)
Definition expectedCells (sequence : Z) (group : ProcessedOrder.t) : list OutCell :=
  [ONum sequence; ONum 9; ONum 1800800001; OStr ""; OStr "";
   OStr (Receiver.phone (ProcessedOrder.receiver group));
   OStr (Receiver.zip (ProcessedOrder.receiver group));
   OStr (Receiver.address (ProcessedOrder.receiver group));
   OStr (Receiver.name (ProcessedOrder.receiver group));
   OStr ""; OStr ""; OStr ""; OStr "";
   OStr "455-0065"; OStr FIXED_VALUES.senderAddress; OStr FIXED_VALUES.senderName;
   OStr (JS.join JS.LF (ProcessedOrder.products group));
   ONum 20; OStr ""; ONum 0; ONum 0;
   OStr (JS.join JS.LF (ProcessedOrder.orderIds group))].

(** The cells as the specification lists them: three blank cells there. *)
Definition claimedCells (sequence : Z) (group : ProcessedOrder.t) : list OutCell :=
  [ONum sequence; ONum 9; ONum 1800800001; OStr ""; OStr "";
   OStr (Receiver.phone (ProcessedOrder.receiver group));
   OStr (Receiver.zip (ProcessedOrder.receiver group));
   OStr (Receiver.address (ProcessedOrder.receiver group));
   OStr (Receiver.name (ProcessedOrder.receiver group));
   OStr ""; OStr ""; OStr "";
   OStr "455-0065"; OStr FIXED_VALUES.senderAddress; OStr FIXED_VALUES.senderName;
   OStr (JS.join JS.LF (ProcessedOrder.products group));
   ONum 20; OStr ""; ONum 0; ONum 0;
   OStr (JS.join JS.LF (ProcessedOrder.orderIds group))].

(** The end-to-end scenario of the specification: two orders of one
    recipient, quantities 1 and 2 of "Box*4". *)
Definition scenarioTable : list Row :=
  [tiktokHeader;
   order "o1" "Box*4" 1 "田中" "1234567" "Tokyo" "09012345678";
   order "o2" "Box*4" 2 "田中" "1234567" "Tokyo" "09012345678"].

Definition scenarioGroup : ProcessedOrder.t :=
  {| ProcessedOrder.id := "09012345678|123-4567|Tokyo|田中";
     ProcessedOrder.orderIds := ["o1"; "o2"];
     ProcessedOrder.receiver :=
       {| Receiver.name := "田中"; Receiver.phone := "09012345678";
          Receiver.zip := "123-4567"; Receiver.address := "Tokyo" |};
     ProcessedOrder.products := ["Box*4"; "Box*8"] |}.

(** The four fatal conditions. *)
Definition tooFewRows (jsonData : list Row) : Prop :=
  (List.length jsonData < 2)%nat.

Definition headerNotFound (jsonData : list Row) : Prop :=
  findHeaderRow jsonData = -1.

Definition requiredUnresolved (jsonData : list Row) : Prop :=
  exists field,
    In field required
    /\ unresolved (columnMapOf (rowAt jsonData (Z.to_nat (findHeaderRow jsonData))))
                  field = true.

Definition noGroups (jsonData : list Row) : Prop :=
  fst (consolidate jsonData (Z.to_nat (findHeaderRow jsonData))) = [].

Definition fatal (jsonData : list Row) : Prop :=
  tooFewRows jsonData \/ headerNotFound jsonData
  \/ requiredUnresolved jsonData \/ noGroups jsonData.

Definition isError (e : LogEntry) : bool :=
  match Log.kind e with Log.error => true | _ => false end.

(** The number of error entries of a log. *)
Definition errorCount (l : list LogEntry) : nat :=
  List.length (filter isError l).

(** A summary entry is told by the way its message starts. *)
Definition isSummary (e : LogEntry) : bool :=
  prefix "⚠️ ATTENTION: " (Log.message e) || prefix "✅ " (Log.message e).

Definition isMergeEntry (e : LogEntry) : bool :=
  match Log.kind e with Log.merge => true | _ => false end.

(** The data rows that pass all five skip conditions, and those that pass
    the first four, for a header at [headerIndex]. *)
Definition validatedCount (jsonData : list Row) (headerIndex : nat) : Z :=
  let headerRow := rowAt jsonData headerIndex in
  Z.of_nat (List.length (filter (validated headerRow (columnMapOf headerRow))
                                (skipn (S headerIndex) jsonData))).

Definition countedCount (jsonData : list Row) (headerIndex : nat) : Z :=
  let headerRow := rowAt jsonData headerIndex in
  Z.of_nat (List.length (filter (counted headerRow (columnMapOf headerRow))
                                (skipn (S headerIndex) jsonData))).

(** The number of order ids held by all groups together. *)
Fixpoint totalOrderIds (orderMap : OrderMap) : nat :=
  match orderMap with
  | [] => 0%nat
  | e :: r => (List.length (ProcessedOrder.orderIds (snd e)) + totalOrderIds r)%nat
  end.

(** One valid order and one order of quantity 0 for another recipient. *)
Definition zeroQuantityTable : list Row :=
  [tiktokHeader;
   order "o1" "Box*4" 1 "Sato" "1234567" "Tokyo" "09012345678";
   order "o2" "Box*4" 0 "Kato" "7654321" "Osaka" "08012345678"].

(** What the specification says of the place of the summary: every merge
    entry of the log comes before every summary entry. *)
Definition summaryAfterMerges (l : list LogEntry) : Prop :=
  forall i j e s,
    nth_error l i = Some e -> isMergeEntry e = true ->
    nth_error l j = Some s -> isSummary s = true ->
    (i < j)%nat.

(** What the specification says of its type: a warning exactly when the
    rows that pass all five skip conditions outnumber the groups. *)
Definition summaryKindByValidated (jsonData : list Row) (headerIndex : nat)
           (l : list LogEntry) : Prop :=
  forall s,
    In s l -> isSummary s = true ->
    Log.kind s
    = if Z.of_nat (List.length (fst (consolidate jsonData headerIndex)))
         <? validatedCount jsonData headerIndex
      then Log.warning else Log.info.

(** The number of rows header detection looks at. *)
Definition scanBound (jsonData : list Row) : nat :=
  Nat.min (List.length jsonData) 20.

(** Every group holds at least one order id. *)
Definition nonEmptyIds (orderMap : OrderMap) : Prop :=
  Forall (fun e => (1 <= List.length (ProcessedOrder.orderIds (snd e)))%nat)
         orderMap.

(** A table whose first row passes the keyword scan only and whose third row
    carries the fixed-layout signature: the third row is the header. *)
Definition priorityTable : list Row :=
  [ [("B", CStr "Phone"); ("C", CStr "Order ID")];
    [("A", CStr "note")];
    [("A", CStr "Order ID"); ("AW", CStr "Phone #")] ].

(** The character is an ASCII letter of the given case. *)
Definition isUpper (c : ascii) : bool :=
  ((65 <=? JS.code c) && (JS.code c <=? 90))%nat.

Definition isLower (c : ascii) : bool :=
  ((97 <=? JS.code c) && (JS.code c <=? 122))%nat.

(** No character of the string satisfies [p]. *)
Fixpoint noChar (p : ascii -> bool) (s : string) : bool :=
  match s with
  | EmptyString => true
  | String c r => negb (p c) && noChar p r
  end.

(** A header in Japanese that names the order id by the keyword 注文ID. *)
Definition japaneseHeader : Row :=
  [("A", CStr "注文ID"); ("B", CStr "電話番号"); ("C", CStr "郵便番号");
   ("D", CStr "受取人")].

(** The receiver a row gives to the group it opens. *)
Definition receiverOf (columnMap : ColumnMap) (row : Row) : Receiver.t :=
  {| Receiver.name := cleanNameOf columnMap row;
     Receiver.phone := cleanPhoneOf columnMap row;
     Receiver.zip := cleanZipOf columnMap row;
     Receiver.address := fullAddressOf row columnMap |}.

(** The group of a merge key in closed form, from the validated rows of the
    key in row order. *)
Definition expectedGroup (columnMap : ColumnMap) (key : string)
           (rows : list Row) : option ProcessedOrder.t :=
  match rows with
  | [] => None
  | first :: _ =>
      Some {| ProcessedOrder.id := key;
              ProcessedOrder.orderIds :=
                fold_left setAdd (map (cleanOrderIdOf columnMap) rows) [];
              ProcessedOrder.receiver := receiverOf columnMap first;
              ProcessedOrder.products := map productOf rows |}
  end.

(** The separator of the merge key does not occur in the string. *)
Definition noBar (s : string) : bool :=
  noChar (fun c => (c =? "|")%char) s.

(** [Number.isSafeInteger(n)]: below 2^53 in absolute value.  On these
    integers parsing, multiplying and printing are exact in JavaScript, and
    the embedding computes what the source computes; the properties that
    depend on the value of a number are stated for them. *)
Definition safeInteger (n : Z) : Prop :=
  - 9007199254740992 < n < 9007199254740992.

(** The pack size a product name carries: the trailing integer of a name of
    pack form, 1 for any other name. *)
Definition packSizeOf (name : string) : Z :=
  match matchPack name with
  | Some (_, digits) => JS.digitsValue 0 digits
  | None => 1
  end.

(** * Properties *)

(** ** calculateProduct *)

Module Product.

Lemma isDigit_code c : JS.isDigit c = true -> (48 <= JS.code c <= 57)%nat.
Proof.
  unfold JS.isDigit. rewrite andb_true_iff, !Nat.leb_le. lia.
Qed.

Lemma star_not_digit : JS.isDigit "*" = false.
Proof. reflexivity. Qed.

Lemma allDigits_app a b :
  JS.allDigits (a ++ b) = JS.allDigits a && JS.allDigits b.
Proof.
  induction a as [|c a IH]; simpl; [reflexivity|].
  now rewrite IH, andb_assoc.
Qed.

Lemma allDigits_no_star d b d' :
  JS.allDigits d = true -> d <> b ++ "*" ++ d'.
Proof.
  intros H ->. rewrite allDigits_app in H. simpl in H.
  rewrite andb_false_r in H. discriminate.
Qed.

Lemma lineTerminatorAt_star c b d :
  JS.lineTerminatorAt (String c (b ++ String "*" d))
  = JS.lineTerminatorAt (String c b).
Proof.
  destruct b as [|c2 [|c3 b3]]; simpl; try reflexivity.
  - destruct d; simpl; [reflexivity|].
    now rewrite andb_false_r.
  - now rewrite andb_false_r.
Qed.

Lemma matchPack_sound s :
  forall b d, matchPack s = Some (b, d) ->
              packForm s b d /\ hasLineTerminator b = false.
Proof.
  induction s as [|c r IH]; intros b d H; [discriminate|].
  cbn [matchPack] in H.
  destruct (JS.lineTerminatorAt (String c r)) eqn:LT.
  - destruct ((c =? "*")%char && negb (r =? "")%string && JS.allDigits r) eqn:E;
      [|discriminate].
    apply andb_true_iff in E as [E _]. apply andb_true_iff in E as [E _].
    apply Ascii.eqb_eq in E. subst c.
    destruct r as [|? [|? ?]]; discriminate.
  - destruct (matchPack r) as [[b0 d0]|] eqn:M.
    + inversion H; subst; clear H.
      destruct (IH _ _ eq_refl) as [(-> & Hd & Ha) Hl].
      split; [repeat split; auto|].
      cbn [hasLineTerminator]. rewrite Hl, orb_false_r.
      change ("*" ++ d) with (String "*" d) in LT.
      now rewrite lineTerminatorAt_star in LT.
    + destruct ((c =? "*")%char && negb (r =? "")%string && JS.allDigits r) eqn:E;
        [|discriminate].
      inversion H; subst; clear H.
      apply andb_true_iff in E as [E Ha]. apply andb_true_iff in E as [E Hn].
      apply Ascii.eqb_eq in E. subst c.
      split; [|reflexivity].
      repeat split; auto.
      intros ->. discriminate.
Qed.

Lemma allDigits_matchPack d : JS.allDigits d = true -> matchPack d = None.
Proof.
  intros H. destruct (matchPack d) as [[b d']|] eqn:M; [|reflexivity].
  apply matchPack_sound in M as [(E & _) _].
  now apply allDigits_no_star in E.
Qed.

Lemma matchPack_complete b :
  forall d, d <> "" -> JS.allDigits d = true ->
            hasLineTerminator b = false ->
            matchPack (b ++ "*" ++ d) = Some (b, d).
Proof.
  induction b as [|c b IH]; intros d Hd Ha Hl.
  - cbn [append matchPack]. change ("*" ++ d) with (String "*" d).
    cbn [matchPack].
    destruct (JS.lineTerminatorAt (String "*" d)) eqn:LT.
    + destruct d as [|? [|? ?]]; discriminate.
    + rewrite (allDigits_matchPack _ Ha), Ha.
      destruct d; [contradiction|reflexivity].
  - cbn [hasLineTerminator] in Hl. apply orb_false_iff in Hl as [Hc Hl].
    cbn [append matchPack]. change ("*" ++ d) with (String "*" d).
    rewrite lineTerminatorAt_star, Hc.
    change (String "*" d) with ("*" ++ d).
    now rewrite (IH d Hd Ha Hl).
Qed.

Lemma strip_digit c r : JS.isDigit c = true ->
                        JS.trimStart (String c r) = String c r.
Proof.
  intros H. apply isDigit_code in H.
  unfold JS.trimStart. cbn [JS.strip].
  assert (S1 : JS.isSpace1 c = false).
  { unfold JS.isSpace1. apply orb_false_iff. split.
    - apply andb_false_iff. right. apply Nat.leb_gt. lia.
    - apply Nat.eqb_neq. lia. }
  rewrite S1. destruct r as [|c2 [|c3 r3]]; try reflexivity.
  - unfold JS.isSpace2.
    replace (JS.code c =? 194)%nat with false
      by (symmetry; apply Nat.eqb_neq; lia).
    reflexivity.
  - unfold JS.isSpace2, JS.isSpace3.
    replace (JS.code c =? 194)%nat with false
      by (symmetry; apply Nat.eqb_neq; lia).
    replace (JS.code c =? 225)%nat with false
      by (symmetry; apply Nat.eqb_neq; lia).
    replace (JS.code c =? 226)%nat with false
      by (symmetry; apply Nat.eqb_neq; lia).
    replace (JS.code c =? 227)%nat with false
      by (symmetry; apply Nat.eqb_neq; lia).
    replace (JS.code c =? 239)%nat with false
      by (symmetry; apply Nat.eqb_neq; lia).
    reflexivity.
Qed.

Lemma takeDigits_all d : JS.allDigits d = true -> JS.takeDigits d = d.
Proof.
  induction d as [|c d IH]; simpl; [reflexivity|].
  intros H. apply andb_true_iff in H as [Hc Hd].
  now rewrite Hc, IH.
Qed.

(** [parseInt] of a digit string is its decimal value, never NaN. *)
Lemma parseInt_digits d :
  d <> "" -> JS.allDigits d = true ->
  JS.parseInt d = Some (JS.digitsValue 0 d).
Proof.
  intros Hd Ha. destruct d as [|c r]; [contradiction|].
  assert (Hc : JS.isDigit c = true) by (simpl in Ha; now apply andb_true_iff in Ha).
  unfold JS.parseInt. rewrite (strip_digit _ r Hc).
  assert (Hm : c <> "-"%char /\ c <> "+"%char).
  { split; intros ->; discriminate. }
  destruct Hm as [Hm Hp].
  assert (E : match String c r with
              | String "-" r0 => (true, r0)
              | String "+" r0 => (false, r0)
              | _ => (false, String c r)
              end = (false, String c r)).
  { destruct c as [[] [] [] [] [] [] [] []]; try reflexivity;
      exfalso; auto. }
  rewrite E, (takeDigits_all _ Ha). reflexivity.
Qed.

End Product.

(** C7 (as amended): for a quantity that is a safe integer,
    [calculateProduct] returns "Unknown*<quantity>" for the empty name; for
    a name of the form <base>*<digits> whose base holds no line terminator
    it returns the name when the quantity is 1 and, when it is not and the
    pack size and its product with the quantity are safe integers,
    <base>*<packSize*quantity>; for every other name it returns
    <name>*<quantity>.  The four examples of the specification hold. *)
Theorem calculateProduct_spec (name : string) (quantity : Z) :
  safeInteger quantity ->
  (name = "" -> calculateProduct name quantity = "Unknown*" ++ JS.stringOfZ quantity)
  /\ (forall base digits,
         packForm name base digits -> hasLineTerminator base = false ->
         (quantity = 1 -> calculateProduct name quantity = name)
         /\ (quantity <> 1 ->
             safeInteger (JS.digitsValue 0 digits) ->
             safeInteger (JS.digitsValue 0 digits * quantity) ->
             calculateProduct name quantity
             = base ++ "*"
                    ++ JS.stringOfZ (JS.digitsValue 0 digits * quantity)))
  /\ (name <> "" ->
      (forall base digits,
          ~ (packForm name base digits /\ hasLineTerminator base = false)) ->
      calculateProduct name quantity = name ++ "*" ++ JS.stringOfZ quantity)
  /\ calculateProduct "Widget*6" 1 = "Widget*6"
  /\ calculateProduct "Widget*6" 2 = "Widget*12"
  /\ calculateProduct "Widget" 3 = "Widget*3"
  /\ calculateProduct "" 2 = "Unknown*2".
Proof.
  intros _.
  split; [intros ->; reflexivity|].
  split; [|split; [|repeat split; reflexivity]].
  - intros base digits (E & Hd & Ha) Hl. subst name.
    assert (R : calculateProduct (base ++ "*" ++ digits) quantity
                = if quantity =? 1 then base ++ "*" ++ digits
                  else base ++ "*"
                       ++ JS.stringOfZ (JS.digitsValue 0 digits * quantity)).
    { unfold calculateProduct.
      rewrite (Product.matchPack_complete base digits Hd Ha Hl).
      rewrite (Product.parseInt_digits digits Hd Ha).
      destruct base; reflexivity. }
    rewrite R. split.
    + intros ->. reflexivity.
    + intros N _ _. now destruct (Z.eqb_spec quantity 1).
  - intros Hn Hno. unfold calculateProduct.
    destruct (String.eqb_spec name ""); [contradiction|].
    destruct (matchPack name) as [[b d]|] eqn:M; [|reflexivity].
    apply Product.matchPack_sound in M. exfalso. exact (Hno b d M).
Qed.

Lemma calculateProduct_spec_witness :
  calculateProduct "Box*4" 2 = "Box*8"
  /\ calculateProduct "Box" 2 = "Box*2".
Proof.
  assert (S2 : safeInteger 2) by (unfold safeInteger; lia).
  destruct (calculateProduct_spec "Box*4" 2 S2) as (_ & H & _).
  destruct (calculateProduct_spec "Box" 2 S2) as (_ & _ & K & _).
  split.
  - destruct (H "Box" "4") as [_ P];
      [repeat split; discriminate || reflexivity | reflexivity |].
    apply P; [lia|unfold safeInteger; split; reflexivity ..].
  - apply K; [discriminate|].
    intros base digits ((E & Hd & Ha) & _).
    destruct base as [|c1 [|c2 [|c3 [|c4 b]]]]; discriminate.
Defined.

(** C7 as stated fails: a name of the form <base>*<packSize> whose base
    spans two lines is not recognised, and the quantity is appended. *)
Lemma calculateProduct_multiline_counterexample :
  packForm ("A" ++ JS.LF ++ "B*6") ("A" ++ JS.LF ++ "B") "6"
  /\ calculateProduct ("A" ++ JS.LF ++ "B*6") 2 = "A" ++ JS.LF ++ "B*6*2"
  /\ calculateProduct ("A" ++ JS.LF ++ "B*6") 2
     <> ("A" ++ JS.LF ++ "B") ++ "*" ++ JS.stringOfZ (JS.digitsValue 0 "6" * 2).
Proof.
  repeat split; try reflexivity; discriminate.
Qed.

(** ** findHeaderRow *)

Module Header.

Section Scan.
Variable test : Row -> bool.
Variable jsonData : list Row.

Lemma firstFrom_some steps :
  forall i j, firstFrom test jsonData i steps = Some j ->
              (i <= j < i + steps)%nat
              /\ test (rowAt jsonData j) = true
              /\ forall k, (i <= k < j)%nat -> test (rowAt jsonData k) = false.
Proof.
  induction steps as [|n IH]; intros i j H; [discriminate|].
  cbn [firstFrom] in H.
  destruct (test (rowAt jsonData i)) eqn:T.
  - inversion H; subst. repeat split; auto; lia.
  - apply IH in H as (B & Tj & Lo).
    repeat split; auto; try lia.
    intros k Hk. destruct (Nat.eq_dec k i) as [->|]; auto.
    apply Lo. lia.
Qed.

Lemma firstFrom_none steps :
  forall i, firstFrom test jsonData i steps = None ->
            forall k, (i <= k < i + steps)%nat ->
                      test (rowAt jsonData k) = false.
Proof.
  induction steps as [|n IH]; intros i H k Hk; [lia|].
  cbn [firstFrom] in H.
  destruct (test (rowAt jsonData i)) eqn:T; [discriminate|].
  destruct (Nat.eq_dec k i) as [->|]; auto.
  apply (IH (S i)); auto. lia.
Qed.

(** The first index that passes the test is the one returned. *)
Lemma firstFrom_least steps :
  forall i j, (i <= j < i + steps)%nat ->
              test (rowAt jsonData j) = true ->
              (forall k, (i <= k < j)%nat -> test (rowAt jsonData k) = false) ->
              firstFrom test jsonData i steps = Some j.
Proof.
  induction steps as [|n IH]; intros i j B Tj Lo; [lia|].
  cbn [firstFrom].
  destruct (Nat.eq_dec j i) as [->|Ne].
  - now rewrite Tj.
  - rewrite (Lo i) by lia. apply IH; auto; try lia.
    intros k Hk. apply Lo. lia.
Qed.

Lemma firstFrom_all_false steps :
  forall i, (forall k, (i <= k < i + steps)%nat ->
                       test (rowAt jsonData k) = false) ->
            firstFrom test jsonData i steps = None.
Proof.
  induction steps as [|n IH]; intros i H; [reflexivity|].
  cbn [firstFrom]. rewrite (H i) by lia.
  apply IH. intros k Hk. apply H. lia.
Qed.
End Scan.

(** Two tables that agree below [i + steps] are scanned alike. *)
Lemma firstFrom_ext test d1 d2 steps :
  forall i, (forall k, (k < i + steps)%nat -> rowAt d1 k = rowAt d2 k) ->
            firstFrom test d1 i steps = firstFrom test d2 i steps.
Proof.
  induction steps as [|n IH]; intros i H; [reflexivity|].
  cbn [firstFrom]. rewrite (H i) by lia.
  destruct (test (rowAt d2 i)); [reflexivity|].
  apply IH. intros k Hk. apply H. lia.
Qed.

Lemma rowAt_firstn n d k : (k < n)%nat -> rowAt (firstn n d) k = rowAt d k.
Proof.
  unfold rowAt. revert n k. induction d as [|r d IH]; intros n k H.
  - now rewrite firstn_nil.
  - destruct n as [|n]; [lia|]. destruct k as [|k]; [reflexivity|].
    cbn. apply IH. lia.
Qed.

Lemma bound_firstn d : scanBound (firstn 20 d) = scanBound d.
Proof. unfold scanBound. rewrite length_firstn. lia. Qed.

End Header.

(** C5: header detection looks at the first 20 rows only; a row with the
    fixed-layout signature is preferred to any row that only passes the
    keyword scan, wherever the two are; within each check the least
    matching index is returned; without any match the result is -1. *)
Theorem findHeaderRow_spec (jsonData : list Row) :
  let bound := Nat.min (List.length jsonData) 20 in
  findHeaderRow jsonData = findHeaderRow (firstn 20 jsonData)
  /\ (forall i, (i < bound)%nat ->
                fixedSignature (rowAt jsonData i) = true ->
                (forall k, (k < i)%nat -> fixedSignature (rowAt jsonData k) = false) ->
                findHeaderRow jsonData = Z.of_nat i)
  /\ ((forall k, (k < bound)%nat -> fixedSignature (rowAt jsonData k) = false) ->
      forall i, (i < bound)%nat ->
                keywordMatch (rowAt jsonData i) = true ->
                (forall k, (k < i)%nat -> keywordMatch (rowAt jsonData k) = false) ->
                findHeaderRow jsonData = Z.of_nat i)
  /\ ((forall k, (k < bound)%nat -> fixedSignature (rowAt jsonData k) = false) ->
      (forall k, (k < bound)%nat -> keywordMatch (rowAt jsonData k) = false) ->
      findHeaderRow jsonData = -1).
Proof.
  intros bound. unfold findHeaderRow. fold (scanBound jsonData).
  fold (scanBound (firstn 20 jsonData)). rewrite Header.bound_firstn.
  change (scanBound jsonData) with bound.
  assert (Hb : (bound <= 20)%nat) by (unfold bound; lia).
  repeat split.
  - rewrite (Header.firstFrom_ext fixedSignature (firstn 20 jsonData) jsonData),
      (Header.firstFrom_ext keywordMatch (firstn 20 jsonData) jsonData);
      auto; intros k Hk; apply Header.rowAt_firstn; lia.
  - intros i Hi Ti Lo.
    rewrite (Header.firstFrom_least fixedSignature jsonData bound 0 i); auto.
    + lia.
    + intros k Hk. apply Lo. lia.
  - intros NoFixed i Hi Ti Lo.
    rewrite (Header.firstFrom_all_false fixedSignature jsonData bound 0).
    + rewrite (Header.firstFrom_least keywordMatch jsonData bound 0 i); auto.
      * lia.
      * intros k Hk. apply Lo. lia.
    + intros k Hk. apply NoFixed. lia.
  - intros NoFixed NoKey.
    rewrite (Header.firstFrom_all_false fixedSignature jsonData bound 0),
      (Header.firstFrom_all_false keywordMatch jsonData bound 0);
      auto; intros k Hk; [apply NoKey|apply NoFixed]; lia.
Qed.

Lemma findHeaderRow_spec_witness :
  keywordMatch (rowAt priorityTable 0) = true
  /\ findHeaderRow priorityTable = 2
  /\ findHeaderRow [[("A", CStr "note")]; [("B", CNum 7)]] = -1.
Proof.
  split; [reflexivity|]. split.
  - destruct (findHeaderRow_spec priorityTable) as (_ & H & _).
    apply (H 2%nat).
    + cbn. lia.
    + reflexivity.
    + intros k Hk. destruct k as [|[|k]]; [reflexivity|reflexivity|lia].
  - destruct (findHeaderRow_spec [[("A", CStr "note")]; [("B", CNum 7)]])
      as (_ & _ & _ & H).
    apply H; intros k Hk; cbn in Hk;
      destruct k as [|[|k]]; [reflexivity|reflexivity|lia|reflexivity|reflexivity|lia].
Defined.

(** ** Generic column mapping *)

Module Mapping.

Lemma eqb_eq a b : Field.eqb a b = true <-> a = b.
Proof. destruct a, b; split; intros H; try reflexivity; discriminate. Qed.

Lemma eqb_refl a : Field.eqb a a = true.
Proof. now apply eqb_eq. Qed.

(** The inner loop over [targetHeaders], for any list of targets. *)
Lemma assign_targets valStr key targets :
  forall m f,
    fold_left
      (fun m (target : Field.t * list string) =>
         let '(field, keywords) := target in
         if mentions valStr keywords then assign m field key else m)
      targets m f
    = if existsb (fun t => Field.eqb f (fst t) && mentions valStr (snd t)) targets
      then Some key else m f.
Proof.
  induction targets as [|[field kws] ts IH]; intros m f; [reflexivity|].
  cbn [fold_left existsb fst snd]. rewrite IH.
  destruct (existsb _ ts); [now rewrite orb_true_r|].
  rewrite orb_false_r.
  destruct (mentions valStr kws); [|now rewrite andb_false_r].
  rewrite andb_true_r. reflexivity.
Qed.

Lemma targets_keywordsFor valStr f :
  existsb (fun t => Field.eqb f (fst t) && mentions valStr (snd t)) targetHeaders
  = mentions valStr (keywordsFor f).
Proof.
  destruct f; cbn [targetHeaders existsb fst snd Field.eqb andb orb keywordsFor find];
    now rewrite ?orb_false_r.
Qed.

(** One header cell: the field takes this column when the cell names it
    and keeps what it had otherwise. *)
Lemma mapHeaderCell_field m key value f :
  mapHeaderCell m (key, value) f
  = if cellMatches f value then Some key else m f.
Proof.
  unfold mapHeaderCell, cellMatches.
  now rewrite assign_targets, targets_keywordsFor.
Qed.

Lemma fold_no_match f post :
  forall m, (forall e, In e post -> cellMatches f (snd e) = false) ->
            fold_left mapHeaderCell post m f = m f.
Proof.
  induction post as [|[k v] post IH]; intros m H; [reflexivity|].
  cbn [fold_left]. rewrite IH by (intros e He; apply H; now right).
  rewrite mapHeaderCell_field.
  pose proof (H (k, v) (or_introl eq_refl)) as Hk. cbn [snd] in Hk.
  now rewrite Hk.
Qed.

End Mapping.

(** C6: under the generic layout a field is mapped to the column of the last
    header cell, in scanning order, whose trimmed and lower-cased text
    contains one of the field's keywords, whatever matched before it; a
    field no cell names stays unmapped. *)
Theorem genericMap_last_match (headerRow : Row) (field : Field.t) :
  (forall pre key value post,
      headerRow = (pre ++ (key, value) :: post)%list ->
      cellMatches field value = true ->
      (forall e, In e post -> cellMatches field (snd e) = false) ->
      genericMap headerRow field = Some key)
  /\ ((forall e, In e headerRow -> cellMatches field (snd e) = false) ->
      genericMap headerRow field = None).
Proof.
  split.
  - intros pre key value post -> Hm Hpost.
    unfold genericMap. rewrite fold_left_app. cbn [fold_left].
    rewrite Mapping.fold_no_match by assumption.
    now rewrite Mapping.mapHeaderCell_field, Hm.
  - intros H. unfold genericMap.
    now rewrite Mapping.fold_no_match.
Qed.

Lemma genericMap_last_match_witness :
  genericMap [("A", CStr "Phone"); ("B", CStr "Order ID"); ("C", CStr " Telephone 2 ")]
             Field.phone = Some "C"
  /\ genericMap [("A", CStr "Phone")] Field.zip = None.
Proof.
  split.
  - destruct (genericMap_last_match
                [("A", CStr "Phone"); ("B", CStr "Order ID"); ("C", CStr " Telephone 2 ")]
                Field.phone) as [H _].
    apply (H [("A", CStr "Phone"); ("B", CStr "Order ID")] "C" (CStr " Telephone 2 ") []);
      [reflexivity|reflexivity|intros e []].
  - destruct (genericMap_last_match [("A", CStr "Phone")] Field.zip) as [_ H].
    apply H. intros e [<-|[]]. reflexivity.
Defined.

(** ** The row loop *)

Module Loop.

Section Rows.
Variable headerRow : Row.
Variable columnMap : ColumnMap.

(** The loop body in one equation: a validated row is placed, a counted
    row is counted, every other row changes nothing. *)
Lemma processRow_eq orderMap count row :
  processRow headerRow columnMap (orderMap, count) row
  = (if validated headerRow columnMap row
     then place columnMap orderMap row else orderMap,
     if counted headerRow columnMap row then count + 1 else count).
Proof.
  unfold processRow, validated, counted, place, positive,
    absorb, freshGroup, keyOf, productOf,
    cleanOrderIdOf, cleanPhoneOf, cleanZipOf, cleanNameOf.
  destruct (truthy (cell row columnMap Field.orderId)); cbn [negb andb];
    [|reflexivity].
  destruct (JS.trim (String_ (cell row columnMap Field.orderId))
            =? JS.trim (strOrEmpty (cell headerRow columnMap Field.orderId)))%string;
    cbn [negb andb]; [reflexivity|].
  destruct ((formatPhone (cell row columnMap Field.phone) =? "")%string
            || (String.length (formatPhone (cell row columnMap Field.phone)) <? 8)%nat);
    cbn [negb andb]; [reflexivity|].
  destruct (String.length (JS.trim (String_ (cell row columnMap Field.orderId))) =? 0)%nat;
    cbn [negb andb]; [reflexivity|].
  destruct (quantityOf row) as [q|]; [|reflexivity].
  destruct (0 <? q); [|reflexivity].
  destruct (mapHas orderMap _); reflexivity.
Qed.

Lemma run_cons row rows st :
  processRows headerRow columnMap (row :: rows) st
  = processRows headerRow columnMap rows
                (processRow headerRow columnMap st row).
Proof. reflexivity. Qed.

Lemma run_app rows1 rows2 st :
  processRows headerRow columnMap (rows1 ++ rows2)%list st
  = processRows headerRow columnMap rows2
                (processRows headerRow columnMap rows1 st).
Proof. apply fold_left_app. Qed.

Lemma run_snoc rows row st :
  processRows headerRow columnMap (rows ++ [row])%list st
  = processRow headerRow columnMap
               (processRows headerRow columnMap rows st) row.
Proof. now rewrite run_app. Qed.

(** The groups do not depend on the counter. *)
Lemma run_fst rows :
  forall orderMap c1 c2,
    fst (processRows headerRow columnMap rows (orderMap, c1))
    = fst (processRows headerRow columnMap rows (orderMap, c2)).
Proof.
  induction rows as [|r rows IH]; intros orderMap c1 c2; [reflexivity|].
  rewrite !run_cons, !processRow_eq. apply IH.
Qed.

(** [processedLinesCount] counts the rows that pass the first four skip
    conditions. *)
Lemma run_snd rows :
  forall orderMap c,
    snd (processRows headerRow columnMap rows (orderMap, c))
    = c + Z.of_nat (List.length (filter (counted headerRow columnMap) rows)).
Proof.
  induction rows as [|r rows IH]; intros orderMap c.
  - cbn. lia.
  - rewrite run_cons, processRow_eq, IH. cbn [filter].
    destruct (counted headerRow columnMap r); cbn [List.length]; lia.
Qed.

(** A row that is not validated leaves the groups as they were. *)
Lemma run_skip pre row post st :
  validated headerRow columnMap row = false ->
  fst (processRows headerRow columnMap (pre ++ row :: post)%list st)
  = fst (processRows headerRow columnMap (pre ++ post)%list st).
Proof.
  intros Hv. rewrite !run_app, run_cons.
  destruct (processRows headerRow columnMap pre st) as [m c].
  rewrite processRow_eq, Hv. apply run_fst.
Qed.

End Rows.

End Loop.

(** ** Skipped rows *)

Lemma skippable_not_validated headerRow columnMap row :
  skippable columnMap row -> validated headerRow columnMap row = false.
Proof.
  intros [Hq|[Hp|Hb]]; unfold validated.
  - apply andb_false_iff. right. unfold positive.
    destruct (quantityOf row) as [q|]; [|reflexivity].
    apply Z.ltb_ge. now apply Hq.
  - apply andb_false_iff. left. unfold counted.
    apply Nat.ltb_lt in Hp. rewrite Hp, orb_true_r.
    cbn [negb]. now rewrite andb_false_r.
  - apply andb_false_iff. left. unfold counted, cleanOrderIdOf.
    unfold blankOrderId in Hb.
    destruct (cell row columnMap Field.orderId) as [c|]; [|reflexivity].
    rewrite Hb. cbn [String.length Nat.eqb negb]. now rewrite andb_false_r.
Qed.

Lemma skipn_data (pre : list Row) row post h :
  (h < List.length pre)%nat ->
  skipn (S h) (pre ++ row :: post) = (skipn (S h) pre ++ row :: post)%list
  /\ skipn (S h) (pre ++ post) = (skipn (S h) pre ++ post)%list
  /\ rowAt (pre ++ row :: post) h = rowAt pre h
  /\ rowAt (pre ++ post) h = rowAt pre h.
Proof.
  intros Hh. rewrite !skipn_app.
  replace (S h - List.length pre)%nat with 0%nat by lia.
  unfold rowAt. rewrite !app_nth1 by lia. auto.
Qed.

(** C8: a data row without a positive quantity, with fewer than 8 phone
    digits or with a blank order id contributes to no group: the loop body
    leaves the map as it is at that row, and the groups of the run are those
    of the same table without the row. *)
Theorem skipped_row_contributes_nothing
        (pre : list Row) (row : Row) (post : list Row) (headerIndex : nat) :
  (headerIndex < List.length pre)%nat ->
  let headerRow := rowAt (pre ++ row :: post) headerIndex in
  let columnMap := columnMapOf headerRow in
  skippable columnMap row ->
  (forall orderMap count,
      fst (processRow headerRow columnMap (orderMap, count) row) = orderMap)
  /\ fst (consolidate (pre ++ row :: post) headerIndex)
     = fst (consolidate (pre ++ post) headerIndex).
Proof.
  intros Hh headerRow columnMap Hs.
  pose proof (skippable_not_validated headerRow columnMap row Hs) as Hv.
  split.
  - intros orderMap count. now rewrite Loop.processRow_eq, Hv.
  - unfold consolidate.
    destruct (skipn_data pre row post headerIndex Hh) as (E1 & E2 & E3 & E4).
    rewrite E1, E2, E4. fold headerRow. rewrite <- E3.
    fold headerRow. fold columnMap.
    now apply Loop.run_skip.
Qed.

Lemma skipped_row_contributes_nothing_witness :
  fst (consolidate
         [tiktokHeader;
          order "o1" "Box*4" 0 "Sato" "1234567" "Tokyo" "09012345678";
          order "o2" "Box*4" 1 "Sato" "1234567" "Tokyo" "09012345678"] 0)
  = fst (consolidate
           [tiktokHeader;
            order "o2" "Box*4" 1 "Sato" "1234567" "Tokyo" "09012345678"] 0).
Proof.
  apply (skipped_row_contributes_nothing
           [tiktokHeader]
           (order "o1" "Box*4" 0 "Sato" "1234567" "Tokyo" "09012345678")
           [order "o2" "Box*4" 1 "Sato" "1234567" "Tokyo" "09012345678"] 0).
  - cbn. lia.
  - left. intros quantity H. vm_compute in H. inversion H. lia.
Defined.

(** ** The map of groups *)

Module Groups.

Lemma mapHas_get orderMap key :
  mapHas orderMap key
  = match mapGet orderMap key with Some _ => true | None => false end.
Proof.
  induction orderMap as [|[k g] m IH]; [reflexivity|].
  cbn [mapHas existsb mapGet fst]. destruct (k =? key)%string; [reflexivity|].
  exact IH.
Qed.

Lemma mapGet_modify orderMap key f key' :
  mapGet (mapModify orderMap key f) key'
  = if (key =? key')%string then option_map f (mapGet orderMap key)
    else mapGet orderMap key'.
Proof.
  induction orderMap as [|[k g] m IH]; cbn [mapModify mapGet option_map].
  - now destruct (key =? key')%string.
  - destruct (String.eqb_spec k key) as [->|Hk]; cbn [mapGet].
    + now destruct (String.eqb_spec key key').
    + rewrite IH. destruct (String.eqb_spec k key') as [->|Hk'].
      * destruct (String.eqb_spec key key') as [->|]; [contradiction|reflexivity].
      * reflexivity.
Qed.

Lemma mapGet_app (orderMap : OrderMap) key g key' :
  mapGet (orderMap ++ [(key, g)])%list key'
  = match mapGet orderMap key' with
    | Some x => Some x
    | None => if (key =? key')%string then Some g else None
    end.
Proof.
  induction orderMap as [|[k x] m IH]; cbn [app mapGet]; [reflexivity|].
  destruct (k =? key')%string; [reflexivity|exact IH].
Qed.

Lemma mapGet_place columnMap orderMap row key' :
  mapGet (place columnMap orderMap row) key'
  = if (keyOf columnMap row =? key')%string
    then Some match mapGet orderMap (keyOf columnMap row) with
              | Some g => absorb columnMap row g
              | None => freshGroup columnMap row
              end
    else mapGet orderMap key'.
Proof.
  unfold place. rewrite mapHas_get.
  destruct (mapGet orderMap (keyOf columnMap row)) as [g|] eqn:G.
  - rewrite mapGet_modify, G. reflexivity.
  - rewrite mapGet_app.
    destruct (String.eqb_spec (keyOf columnMap row) key') as [<-|];
      [now rewrite G|].
    now destruct (mapGet orderMap key').
Qed.

Lemma length_modify orderMap key f :
  List.length (mapModify orderMap key f) = List.length orderMap.
Proof.
  induction orderMap as [|[k g] m IH]; [reflexivity|].
  cbn [mapModify]. destruct (k =? key)%string; cbn [List.length]; auto.
Qed.

Section Contents.
Variable headerRow : Row.
Variable columnMap : ColumnMap.

Lemma rowsFor_app key rows1 rows2 :
  rowsFor headerRow columnMap key (rows1 ++ rows2)%list
  = (rowsFor headerRow columnMap key rows1
     ++ rowsFor headerRow columnMap key rows2)%list.
Proof. apply filter_app. Qed.

Lemma rowsFor_cons key row rows :
  rowsFor headerRow columnMap key (row :: rows)
  = if validated headerRow columnMap row
       && (keyOf columnMap row =? key)%string
    then row :: rowsFor headerRow columnMap key rows
    else rowsFor headerRow columnMap key rows.
Proof. reflexivity. Qed.

(** Refinement of the loop: the group stored under a key is the one the
    rows of that key describe. *)
Lemma contents rows count key :
  mapGet (fst (processRows headerRow columnMap rows ([], count))) key
  = groupFor headerRow columnMap key rows.
Proof.
  induction rows as [|row rows IH] using rev_ind; [reflexivity|].
  rewrite Loop.run_snoc.
  destruct (processRows headerRow columnMap rows ([], count)) as [m c].
  rewrite Loop.processRow_eq. cbn [fst] in *.
  unfold groupFor in *. rewrite rowsFor_app.
  unfold rowsFor at 2. cbn [filter].
  destruct (validated headerRow columnMap row); cbn [andb].
  - rewrite mapGet_place.
    destruct (String.eqb_spec (keyOf columnMap row) key) as [E|E].
    + rewrite E, IH.
      destruct (rowsFor headerRow columnMap key rows) as [|r rs];
        [reflexivity|].
      cbn [app]. now rewrite fold_left_app.
    + now rewrite IH, app_nil_r.
  - now rewrite IH, app_nil_r.
Qed.

Lemma absorbed_products rs :
  forall g,
    ProcessedOrder.products
      (fold_left (fun g r' => absorb columnMap r' g) rs g)
    = (ProcessedOrder.products g ++ map productOf rs)%list.
Proof.
  induction rs as [|r rs IH]; intros g; cbn [fold_left map].
  - now rewrite app_nil_r.
  - rewrite IH. cbn [absorb ProcessedOrder.products].
    now rewrite <- app_assoc.
Qed.

Lemma absorbed_orderIds rs :
  forall g,
    ProcessedOrder.orderIds
      (fold_left (fun g r' => absorb columnMap r' g) rs g)
    = fold_left setAdd (map (cleanOrderIdOf columnMap) rs)
                (ProcessedOrder.orderIds g).
Proof.
  induction rs as [|r rs IH]; intros g; cbn [fold_left map]; [reflexivity|].
  now rewrite IH.
Qed.

Lemma absorbed_receiver rs :
  forall g,
    ProcessedOrder.receiver
      (fold_left (fun g r' => absorb columnMap r' g) rs g)
    = ProcessedOrder.receiver g.
Proof.
  induction rs as [|r rs IH]; intros g; cbn [fold_left]; [reflexivity|].
  now rewrite IH.
Qed.

Lemma absorbed_id rs :
  forall g,
    ProcessedOrder.id (fold_left (fun g r' => absorb columnMap r' g) rs g)
    = ProcessedOrder.id g.
Proof.
  induction rs as [|r rs IH]; intros g; cbn [fold_left]; [reflexivity|].
  now rewrite IH.
Qed.

(** A group is stored under its own merge key. *)
Lemma group_id rows key g :
  groupFor headerRow columnMap key rows = Some g ->
  ProcessedOrder.id g = key.
Proof.
  unfold groupFor.
  destruct (rowsFor headerRow columnMap key rows) as [|r rs] eqn:E;
    [discriminate|].
  intros H. inversion H; subst; clear H.
  rewrite absorbed_id. cbn [freshGroup ProcessedOrder.id].
  assert (I : In r (rowsFor headerRow columnMap key rows))
    by (rewrite E; now left).
  apply filter_In in I as [_ I].
  apply andb_true_iff in I as [_ I]. now apply String.eqb_eq in I.
Qed.

(** What a group holds: one product per validated row of its key, in row
    order, and the order ids of those rows, each once, in the order they
    first occur. *)
Lemma group_contents rows key g :
  groupFor headerRow columnMap key rows = Some g ->
  ProcessedOrder.products g
  = map productOf (rowsFor headerRow columnMap key rows)
  /\ ProcessedOrder.orderIds g
     = fold_left setAdd
                 (map (cleanOrderIdOf columnMap)
                      (rowsFor headerRow columnMap key rows)) [].
Proof.
  unfold groupFor.
  destruct (rowsFor headerRow columnMap key rows) as [|r rs];
    [discriminate|].
  intros H. inversion H; subst; clear H.
  rewrite absorbed_products, absorbed_orderIds. split; reflexivity.
Qed.

End Contents.

Lemma setAdd_in s x y : In y (setAdd s x) <-> In y s \/ y = x.
Proof.
  unfold setAdd. destruct (existsb (String.eqb x) s) eqn:E.
  - split; [auto|]. intros [H| ->]; [assumption|].
    apply existsb_exists in E as (z & Hz & Ez).
    apply String.eqb_eq in Ez. now subst.
  - rewrite in_app_iff. cbn. intuition.
Qed.

Lemma fold_setAdd_in l :
  forall s y, In y (fold_left setAdd l s) <-> In y s \/ In y l.
Proof.
  induction l as [|x l IH]; intros s y; cbn [fold_left].
  - cbn. intuition.
  - rewrite IH, setAdd_in. cbn. intuition.
Qed.

Lemma setAdd_NoDup s x : NoDup s -> NoDup (setAdd s x).
Proof.
  intros H. unfold setAdd. destruct (existsb (String.eqb x) s) eqn:E; [assumption|].
  apply NoDup_app; [assumption|constructor; [intros []|constructor]|].
  intros y Hy [->|[]].
  assert (existsb (String.eqb y) s = true); [|congruence].
  apply existsb_exists. exists y. split; [assumption|apply String.eqb_refl].
Qed.

Lemma fold_setAdd_NoDup l :
  forall s, NoDup s -> NoDup (fold_left setAdd l s).
Proof.
  induction l as [|x l IH]; intros s H; cbn [fold_left]; [assumption|].
  apply IH. now apply setAdd_NoDup.
Qed.

End Groups.

(** ** Merging *)

Module Merge.

Section Pairs.
Variable headerRow : Row.
Variable columnMap : ColumnMap.

(** Rows with equal normalized fields have equal merge keys. *)
Lemma equal_fields_equal_keys r1 r2 :
  cleanPhoneOf columnMap r1 = cleanPhoneOf columnMap r2 ->
  cleanZipOf columnMap r1 = cleanZipOf columnMap r2 ->
  fullAddressOf r1 columnMap = fullAddressOf r2 columnMap ->
  cleanNameOf columnMap r1 = cleanNameOf columnMap r2 ->
  keyOf columnMap r1 = keyOf columnMap r2.
Proof. unfold keyOf. now intros -> -> -> ->. Qed.

(** Two validated rows with one merge key end in one group, which holds
    both order ids and both product descriptions, in row order. *)
Lemma same_key_same_group l1 r1 l2 r2 l3 count :
  validated headerRow columnMap r1 = true ->
  validated headerRow columnMap r2 = true ->
  keyOf columnMap r1 = keyOf columnMap r2 ->
  exists g,
    mapGet (fst (processRows headerRow columnMap
                             (l1 ++ r1 :: l2 ++ r2 :: l3) ([], count)))
           (keyOf columnMap r1) = Some g
    /\ In (cleanOrderIdOf columnMap r1) (ProcessedOrder.orderIds g)
    /\ In (cleanOrderIdOf columnMap r2) (ProcessedOrder.orderIds g)
    /\ exists a b c,
        ProcessedOrder.products g
        = (a ++ productOf r1 :: b ++ productOf r2 :: c)%list.
Proof.
  intros V1 V2 K.
  rewrite Groups.contents.
  set (key := keyOf columnMap r1).
  assert (R : rowsFor headerRow columnMap key (l1 ++ r1 :: l2 ++ r2 :: l3)
              = (rowsFor headerRow columnMap key l1
                 ++ r1 :: rowsFor headerRow columnMap key l2
                 ++ r2 :: rowsFor headerRow columnMap key l3)%list).
  { rewrite Groups.rowsFor_app, Groups.rowsFor_cons, V1.
    unfold key at 2. rewrite String.eqb_refl. cbn [andb].
    rewrite Groups.rowsFor_app, Groups.rowsFor_cons, V2.
    unfold key at 3. rewrite <- K, String.eqb_refl. reflexivity. }
  destruct (groupFor headerRow columnMap key (l1 ++ r1 :: l2 ++ r2 :: l3))
    as [g|] eqn:G.
  - exists g. split; [reflexivity|].
    apply Groups.group_contents in G as [P I].
    rewrite R in P, I. rewrite I, P.
    repeat split.
    + apply Groups.fold_setAdd_in. right. rewrite map_app, in_app_iff.
      right. now left.
    + apply Groups.fold_setAdd_in. right. rewrite map_app, in_app_iff.
      right. right. rewrite map_app, in_app_iff. right. now left.
    + exists (map productOf (rowsFor headerRow columnMap key l1)),
        (map productOf (rowsFor headerRow columnMap key l2)),
        (map productOf (rowsFor headerRow columnMap key l3)).
      now rewrite map_app, (map_cons productOf r1), map_app.
  - unfold groupFor in G. rewrite R in G.
    destruct (rowsFor headerRow columnMap key l1); discriminate.
Qed.

(** The order-id set of every group is free of duplicates after any
    number of rows. *)
Lemma orderIds_NoDup rows :
  forall st,
    Forall (fun e => NoDup (ProcessedOrder.orderIds (snd e))) (fst st) ->
    Forall (fun e => NoDup (ProcessedOrder.orderIds (snd e)))
           (fst (processRows headerRow columnMap rows st)).
Proof.
  induction rows as [|row rows IH]; intros [m c] H; [assumption|].
  rewrite Loop.run_cons, Loop.processRow_eq. apply IH. cbn [fst] in *.
  destruct (validated headerRow columnMap row); [|assumption].
  unfold place. destruct (mapHas m (keyOf columnMap row)).
  - clear IH. induction m as [|[k g] m IHm]; [constructor|].
    inversion H; subst. cbn [mapModify].
    destruct (k =? keyOf columnMap row)%string.
    + constructor; [|assumption]. cbn [snd absorb ProcessedOrder.orderIds] in *.
      now apply Groups.setAdd_NoDup.
    + constructor; [assumption|]. now apply IHm.
  - apply Forall_app. split; [assumption|].
    constructor; [|constructor].
    cbn. constructor; [intros []|constructor].
Qed.

(** A validated row whose order id its group already holds: the set
    stays, the product is appended. *)
Lemma repeated_order_id orderMap count row g :
  validated headerRow columnMap row = true ->
  mapGet orderMap (keyOf columnMap row) = Some g ->
  In (cleanOrderIdOf columnMap row) (ProcessedOrder.orderIds g) ->
  exists g',
    mapGet (fst (processRow headerRow columnMap (orderMap, count) row))
           (keyOf columnMap row) = Some g'
    /\ ProcessedOrder.orderIds g' = ProcessedOrder.orderIds g
    /\ ProcessedOrder.products g'
       = (ProcessedOrder.products g ++ [productOf row])%list.
Proof.
  intros V G I.
  rewrite Loop.processRow_eq, V. cbn [fst].
  rewrite Groups.mapGet_place, String.eqb_refl, G.
  eexists. split; [reflexivity|].
  cbn [absorb ProcessedOrder.orderIds ProcessedOrder.products].
  split; [|reflexivity].
  unfold setAdd.
  replace (existsb (String.eqb (cleanOrderIdOf columnMap row))
                   (ProcessedOrder.orderIds g)) with true; [reflexivity|].
  symmetry. apply existsb_exists.
  exists (cleanOrderIdOf columnMap row).
  split; [assumption|apply String.eqb_refl].
Qed.

End Pairs.

End Merge.

(** ** processFile as a whole *)

Module Run.

Lemma emit_fold orderMap :
  forall acc,
    outputRows (fold_left emitGroup orderMap acc)
    = (outputRows acc ++ rowsFrom (sequence acc) (map snd orderMap))%list
    /\ logsToAppend (fold_left emitGroup orderMap acc)
       = (logsToAppend acc ++ mergeLogs orderMap)%list.
Proof.
  induction orderMap as [|[k g] m IH]; intros acc; cbn [fold_left map rowsFrom].
  - unfold mergeLogs. cbn. now rewrite !app_nil_r.
  - destruct (IH (emitGroup acc (k, g))) as [E1 E2]. rewrite E1, E2.
    unfold mergeLogs. cbn [emitGroup outputRows logsToAppend sequence snd map filter].
    rewrite <- app_assoc. split; [reflexivity|].
    destruct (1 <? List.length (ProcessedOrder.orderIds g))%nat;
      [now rewrite <- app_assoc|reflexivity].
Qed.

Lemma generateOutput_rows orderMap :
  outputRows (generateOutput orderMap) = rowsFrom 1 (map snd orderMap).
Proof. unfold generateOutput. now rewrite (proj1 (emit_fold orderMap _)). Qed.

Lemma generateOutput_logs orderMap :
  logsToAppend (generateOutput orderMap) = mergeLogs orderMap.
Proof. unfold generateOutput. now rewrite (proj2 (emit_fold orderMap _)). Qed.

Lemma length_rowsFrom groups : forall s, List.length (rowsFrom s groups) = List.length groups.
Proof. induction groups as [|g r IH]; intros s; cbn; auto. Qed.

(** Refinement of [processFile]: an exception before the row loop leaves
    one error entry; otherwise the groups and the count decide the state. *)
Lemma processFile_eq st jsonData :
  processFile st jsonData
  = match located jsonData with
    | None => failed st (thrownMessage jsonData)
    | Some headerIndex => finished st (consolidate jsonData headerIndex)
    end.
Proof.
  unfold processFile, tryBlock, located, thrownMessage.
  destruct (List.length jsonData <? 2)%nat; [reflexivity|].
  destruct (findHeaderRow jsonData =? -1); [reflexivity|].
  destruct (0 <? List.length (missing _))%nat; [reflexivity|].
  destruct (consolidate jsonData (Z.to_nat (findHeaderRow jsonData))) as [m c].
  rewrite generateOutput_rows, generateOutput_logs, length_rowsFrom, length_map.
  unfold finished, summaryEntry.
  destruct (Z.of_nat (List.length m) <? c);
    destruct (List.length m =? 0)%nat;
    unfold setIsProcessing, setLogs, setProcessedWorkbook, setStats,
      setHasMerges, noOrdersEntry, completionEntry;
    cbn [logs isProcessing processedWorkbook stats hasMerges app];
    now rewrite ?app_nil_r.
Qed.

End Run.

(** C1 (failure of the only-if part): in [collisionTable] the two data rows
    are validated and differ in normalized zip and in full address, yet
    their merge keys are the same string, so the run puts them in one group:
    one output row, addressed to the first row's zip and address, carrying
    both order ids. *)
Theorem merge_key_collision :
  let headerRow := rowAt collisionTable 0 in
  let columnMap := columnMapOf headerRow in
  let r1 := rowAt collisionTable 1 in
  let r2 := rowAt collisionTable 2 in
  validated headerRow columnMap r1 = true
  /\ validated headerRow columnMap r2 = true
  /\ cleanZipOf columnMap r1 = "1|2" /\ cleanZipOf columnMap r2 = "1"
  /\ fullAddressOf r1 columnMap = "3" /\ fullAddressOf r2 columnMap = "2|3"
  /\ keyOf columnMap r1 = keyOf columnMap r2
  /\ findHeaderRow collisionTable = 0
  /\ map (fun e => (ProcessedOrder.orderIds (snd e),
                    ProcessedOrder.receiver (snd e)))
         (fst (consolidate collisionTable 0))
     = [(["o1"; "o2"],
         {| Receiver.name := "Sato"; Receiver.phone := "09012345678";
            Receiver.zip := "1|2"; Receiver.address := "3" |})]
  /\ option_map (fun w => List.length (wsData w))
                (processedWorkbook (processFile initialState collisionTable))
     = Some 5%nat.
Proof.
  cbv zeta. repeat split; vm_compute; reflexivity.
Qed.

(** C10: the order-id set of every group is duplicate-free after any number
    of rows; a validated row whose trimmed order id is already in its
    group's set leaves the set as it is and appends one product; so in
    [duplicateTable] the one group has two products for one order id and
    the log holds no merge entry, although two rows went into the group:
    a merge entry is made for the groups with more than one order id, and
    for no other. *)
Theorem orderIds_duplicate_free :
  (forall headerRow columnMap rows count key g,
      In (key, g) (fst (processRows headerRow columnMap rows ([], count))) ->
      NoDup (ProcessedOrder.orderIds g))
  /\ (forall headerRow columnMap orderMap count row g,
         validated headerRow columnMap row = true ->
         mapGet orderMap (keyOf columnMap row) = Some g ->
         In (cleanOrderIdOf columnMap row) (ProcessedOrder.orderIds g) ->
         exists g',
           mapGet (fst (processRow headerRow columnMap (orderMap, count) row))
                  (keyOf columnMap row) = Some g'
           /\ ProcessedOrder.orderIds g' = ProcessedOrder.orderIds g
           /\ ProcessedOrder.products g'
              = (ProcessedOrder.products g ++ [productOf row])%list)
  /\ (forall orderMap,
         logsToAppend (generateOutput orderMap)
         = map (fun g => logOf Log.merge (mergeMessage g))
               (filter (fun g => (1 <? List.length (ProcessedOrder.orderIds g))%nat)
                       (map snd orderMap)))
  /\ (let headerRow := rowAt duplicateTable 0 in
      let columnMap := columnMapOf headerRow in
      validated headerRow columnMap (rowAt duplicateTable 1) = true
      /\ validated headerRow columnMap (rowAt duplicateTable 2) = true
      /\ map (fun e => (ProcessedOrder.orderIds (snd e),
                        ProcessedOrder.products (snd e)))
             (fst (consolidate duplicateTable 0))
         = [(["o1"], ["Box*4"; "Box*8"])]
      /\ map Log.kind (logs (processFile initialState duplicateTable))
         = [Log.warning; Log.info]).
Proof.
  split; [|split; [|split]].
  - intros headerRow columnMap rows count key g H.
    pose proof (Merge.orderIds_NoDup headerRow columnMap rows ([], count)
                                     (Forall_nil _)) as F.
    rewrite Forall_forall in F. exact (F _ H).
  - exact Merge.repeated_order_id.
  - exact Run.generateOutput_logs.
  - cbv zeta. repeat split; vm_compute; reflexivity.
Qed.

Lemma orderIds_duplicate_free_witness :
  exists g',
    mapGet (fst (processRow tiktokHeader tiktokMap
                            (fst (consolidate duplicateTable 0), 2)
                            (rowAt duplicateTable 2)))
           (keyOf tiktokMap (rowAt duplicateTable 2)) = Some g'
    /\ ProcessedOrder.orderIds g' = ["o1"]
    /\ ProcessedOrder.products g' = ["Box*4"; "Box*8"; "Box*8"].
Proof.
  destruct orderIds_duplicate_free as (_ & H & _).
  destruct (H tiktokHeader tiktokMap (fst (consolidate duplicateTable 0)) 2
              (rowAt duplicateTable 2)
              {| ProcessedOrder.id := "09012345678|123-4567|Tokyo|Sato";
                 ProcessedOrder.orderIds := ["o1"];
                 ProcessedOrder.receiver :=
                   {| Receiver.name := "Sato"; Receiver.phone := "09012345678";
                      Receiver.zip := "123-4567"; Receiver.address := "Tokyo" |};
                 ProcessedOrder.products := ["Box*4"; "Box*8"] |})
    as (g' & G & I & P).
  - vm_compute. reflexivity.
  - vm_compute. reflexivity.
  - vm_compute. now left.
  - exists g'. repeat split; [exact G | exact I | exact P].
Defined.

(** ** The output table *)

Module Table.

Lemma toArray_rowDataOf sequence group :
  toArray (rowDataOf sequence group) = expectedCells sequence group.
Proof. reflexivity. Qed.

Lemma nth_rowsFrom groups :
  forall sequence i g,
    nth_error groups i = Some g ->
    nth_error (rowsFrom sequence groups) i
    = Some (rowDataOf (sequence + Z.of_nat i) g).
Proof.
  induction groups as [|g0 r IH]; intros sequence i g H.
  - destruct i; discriminate.
  - destruct i as [|i]; cbn [nth_error rowsFrom] in *.
    + inversion H. now rewrite Z.add_0_r.
    + rewrite (IH (sequence + 1) i g H). do 2 f_equal. lia.
Qed.

(** A run that set the workbook got through the row loop with at least one
    group. *)
Lemma produced st jsonData workbook :
  processedWorkbook (processFile (handleFileUpload st) jsonData) = Some workbook ->
  exists headerIndex,
    located jsonData = Some headerIndex
    /\ workbook = newWorkbook (rowsFrom 1 (map snd (fst (consolidate jsonData headerIndex)))).
Proof.
  rewrite Run.processFile_eq. intros H.
  destruct (located jsonData) as [h|]; [|discriminate].
  exists h. split; [reflexivity|].
  destruct (consolidate jsonData h) as [m c]. cbn in H.
  destruct (List.length m =? 0)%nat; [discriminate|].
  now inversion H.
Qed.

End Table.

(** C2 (as amended): the table starts with three empty rows and the header
    row; the row of the i-th group (from 0) follows at index 4 + i and has
    22 cells: sequence number i + 1; 9; 1800800001; two blank cells; phone;
    zip; full address; name; four blank cells; sender zip 455-0065; sender
    address; sender name; products joined by newline; 20; blank; 0; 0;
    order ids joined by newline. *)
Theorem output_row_cells (st : AppState) (jsonData : list Row) (workbook : WorkBook) :
  processedWorkbook (processFile (handleFileUpload st) jsonData) = Some workbook ->
  exists headerIndex,
    located jsonData = Some headerIndex
    /\ let groups := map snd (fst (consolidate jsonData headerIndex)) in
       List.length (wsData workbook) = (4 + List.length groups)%nat
       /\ firstn 4 (wsData workbook) = [[]; []; []; map OStr headerRowValues]
       /\ forall i group,
           nth_error groups i = Some group ->
           nth_error (wsData workbook) (4 + i)
           = Some (expectedCells (Z.of_nat i + 1) group)
           /\ List.length (expectedCells (Z.of_nat i + 1) group) = 22%nat.
Proof.
  intros H. apply Table.produced in H as (h & L & ->).
  exists h. split; [assumption|]. cbv zeta.
  cbn [wsData newWorkbook]. unfold wsDataOf.
  repeat split.
  - cbn [app List.length]. now rewrite length_map, Run.length_rowsFrom.
  - change (4 + i)%nat with (S (S (S (S i)))). cbn [app nth_error].
    rewrite nth_error_map, (Table.nth_rowsFrom _ 1 i group H).
    cbn [option_map]. rewrite Table.toArray_rowDataOf.
    do 2 f_equal. lia.
Qed.

Lemma output_row_cells_witness :
  nth_error
    (match processedWorkbook (processFile (handleFileUpload initialState) scenarioTable) with
     | Some w => wsData w
     | None => []
     end) 4
  = Some (expectedCells 1 scenarioGroup).
Proof.
  destruct (output_row_cells
              initialState scenarioTable
              (newWorkbook (rowsFrom 1 [scenarioGroup])))
    as (h & L & _ & _ & H).
  - vm_compute. reflexivity.
  - vm_compute in L. inversion L; subst h.
    destruct (H 0%nat scenarioGroup) as [E _].
    + vm_compute. reflexivity.
    + vm_compute. vm_compute in E. exact E.
Defined.

(** C2 as stated fails: the row of the scenario's group is not the list of
    cells the specification gives, which has 21 cells and puts the sender's
    zip where the source has a fourth blank cell. *)
Lemma output_row_cells_counterexample :
  List.length (claimedCells 1 scenarioGroup) = 21%nat
  /\ option_map (fun w => nth_error (wsData w) 4)
                (processedWorkbook (processFile initialState scenarioTable))
     <> Some (Some (claimedCells 1 scenarioGroup))
  /\ option_map (fun w => option_map (fun r => nth_error r 12) (nth_error (wsData w) 4))
                (processedWorkbook (processFile initialState scenarioTable))
     = Some (Some (Some (OStr "")))
  /\ nth_error (claimedCells 1 scenarioGroup) 12 = Some (OStr "455-0065").
Proof.
  repeat split; try reflexivity.
  vm_compute. discriminate.
Qed.

(** ** Fatal conditions *)

Module Fatal.

Lemma missing_nonempty columnMap :
  (0 <? List.length (missing columnMap))%nat = true
  <-> exists field, In field required /\ unresolved columnMap field = true.
Proof.
  unfold missing. split.
  - intros H. apply Nat.ltb_lt in H.
    destruct (filter (unresolved columnMap) required) as [|f l] eqn:E;
      [cbn in H; lia|].
    exists f. apply filter_In. rewrite E. now left.
  - intros (f & Hf). apply filter_In in Hf. apply Nat.ltb_lt.
    destruct (filter (unresolved columnMap) required); [destruct Hf|cbn; lia].
Qed.

Lemma located_none jsonData :
  located jsonData = None
  <-> tooFewRows jsonData \/ headerNotFound jsonData
      \/ requiredUnresolved jsonData.
Proof.
  unfold located, tooFewRows, headerNotFound, requiredUnresolved.
  destruct (Nat.ltb_spec (List.length jsonData) 2) as [L|L];
    [split; auto|].
  destruct (Z.eqb_spec (findHeaderRow jsonData) (-1)) as [F|F];
    [split; auto|].
  destruct (0 <? List.length (missing _))%nat eqn:M.
  - split; [|reflexivity]. intros _. right. right.
    now apply missing_nonempty.
  - split; [discriminate|].
    intros [H|[H|H]]; [lia|contradiction|].
    apply missing_nonempty in H. congruence.
Qed.

Lemma located_some jsonData headerIndex :
  located jsonData = Some headerIndex ->
  headerIndex = Z.to_nat (findHeaderRow jsonData)
  /\ ~ (tooFewRows jsonData \/ headerNotFound jsonData
        \/ requiredUnresolved jsonData).
Proof.
  intros H. split.
  - unfold located in H.
    destruct (List.length jsonData <? 2)%nat; [discriminate|].
    destruct (findHeaderRow jsonData =? -1); [discriminate|].
    destruct (0 <? List.length (missing _))%nat; [discriminate|].
    now inversion H.
  - intros N. apply located_none in N. congruence.
Qed.

Lemma errorCount_mergeLogs orderMap : filter isError (mergeLogs orderMap) = [].
Proof.
  unfold mergeLogs.
  induction (filter _ (map snd orderMap)) as [|g l IH]; [reflexivity|].
  exact IH.
Qed.

Lemma summary_not_error count groups : isError (summaryEntry count groups) = false.
Proof. unfold summaryEntry. now destruct (groups <? count). Qed.

(** The error entries of the log of a run that reached the row loop. *)
Lemma errorCount_finished st orderMap count :
  errorCount (logs (finished st (orderMap, count)))
  = if (List.length orderMap =? 0)%nat then 1%nat else 0%nat.
Proof.
  unfold errorCount. cbn [finished logs filter].
  rewrite summary_not_error, filter_app.
  assert (M : filter isError
                     (if Z.of_nat (List.length orderMap) <? count
                      then mergeLogs orderMap else []) = []).
  { destruct (_ <? count); [apply errorCount_mergeLogs|reflexivity]. }
  rewrite M. now destruct (List.length orderMap =? 0)%nat.
Qed.

End Fatal.

(** C4: a run on freshly selected rows ends without an output table and with
    exactly one error entry in its log if and only if the table has fewer
    than 2 rows, or no header row is found, or a required column is
    unresolved, or no group remains; in every other case it ends with an
    output table and without any error entry. *)
Theorem abort_iff_fatal (st : AppState) (jsonData : list Row) :
  let st' := processFile (handleFileUpload st) jsonData in
  ((processedWorkbook st' = None /\ errorCount (logs st') = 1%nat)
   <-> fatal jsonData)
  /\ (~ fatal jsonData ->
      processedWorkbook st' <> None /\ errorCount (logs st') = 0%nat).
Proof.
  cbv zeta. rewrite Run.processFile_eq. unfold fatal.
  destruct (located jsonData) as [h|] eqn:L.
  - destruct (Fatal.located_some _ _ L) as [-> N].
    unfold noGroups.
    destruct (consolidate jsonData (Z.to_nat (findHeaderRow jsonData)))
      as [m c] eqn:C.
    rewrite Fatal.errorCount_finished. cbn [fst finished processedWorkbook].
    destruct m as [|e m]; cbn [List.length Nat.eqb].
    + split; [split; auto|]. intros F. exfalso. apply F. auto.
    + split.
      * split; [intros [H _]; discriminate|].
        intros [H|[H|[H|H]]]; [exfalso; apply N; auto ..|discriminate].
      * intros _. split; [discriminate|reflexivity].
  - apply Fatal.located_none in L.
    split.
    + split; [intros _; tauto|]. intros _. split; reflexivity.
    + intros F. exfalso. apply F. tauto.
Qed.

Lemma abort_iff_fatal_witness :
  processedWorkbook (processFile (handleFileUpload initialState) scenarioTable) <> None
  /\ errorCount (logs (processFile (handleFileUpload initialState) scenarioTable)) = 0%nat.
Proof.
  destruct (abort_iff_fatal initialState scenarioTable) as [_ H].
  apply H. intros [F|[F|[F|F]]].
  - unfold tooFewRows in F. cbn in F. lia.
  - vm_compute in F. discriminate.
  - destruct F as (f & Hin & Hu).
    destruct Hin as [<-|[<-|[<-|[<-|[]]]]]; vm_compute in Hu; discriminate.
  - vm_compute in F. discriminate.
Defined.

(** ** The summary entry *)

Module Summary.

Lemma length_setAdd s x :
  (List.length s <= List.length (setAdd s x) <= S (List.length s))%nat.
Proof.
  unfold setAdd. destruct (existsb (String.eqb x) s); [lia|].
  rewrite length_app. cbn. lia.
Qed.

Lemma totalOrderIds_app (m1 m2 : OrderMap) :
  totalOrderIds (m1 ++ m2)%list = (totalOrderIds m1 + totalOrderIds m2)%nat.
Proof. induction m1 as [|e m1 IH]; cbn [app totalOrderIds]; lia. Qed.

Lemma place_total columnMap orderMap row :
  nonEmptyIds orderMap ->
  nonEmptyIds (place columnMap orderMap row)
  /\ (totalOrderIds (place columnMap orderMap row) <= S (totalOrderIds orderMap))%nat.
Proof.
  intros H. unfold place. destruct (mapHas orderMap (keyOf columnMap row)).
  - induction orderMap as [|[k g] m IH]; [split; [constructor|cbn; lia]|].
    inversion H as [|? ? Hg Hm]; subst. cbn [mapModify].
    destruct (k =? keyOf columnMap row)%string.
    + pose proof (length_setAdd (ProcessedOrder.orderIds g)
                                (cleanOrderIdOf columnMap row)) as L.
      split.
      * constructor; [|assumption].
        cbn [snd absorb ProcessedOrder.orderIds] in *. lia.
      * cbn [totalOrderIds snd absorb ProcessedOrder.orderIds]. lia.
    + destruct (IH Hm) as [F T]. split.
      * now constructor.
      * cbn [totalOrderIds]. lia.
  - split.
    + apply Forall_app. split; [assumption|]. repeat constructor.
    + rewrite totalOrderIds_app. cbn. lia.
Qed.

(** The order ids held by the groups never outnumber the counted rows. *)
Lemma run_total headerRow columnMap rows :
  forall orderMap count,
    nonEmptyIds orderMap ->
    let st := processRows headerRow columnMap rows (orderMap, count) in
    nonEmptyIds (fst st)
    /\ Z.of_nat (totalOrderIds (fst st)) - snd st
       <= Z.of_nat (totalOrderIds orderMap) - count.
Proof.
  induction rows as [|row rows IH]; intros m c H; cbv zeta.
  - cbn. split; [assumption|lia].
  - rewrite Loop.run_cons, Loop.processRow_eq.
    unfold validated.
    destruct (counted headerRow columnMap row); cbn [andb].
    + destruct (positive (quantityOf row)).
      * destruct (place_total columnMap m row H) as [F T].
        destruct (IH (place columnMap m row) (c + 1) F) as [F' T'].
        split; [assumption|lia].
      * destruct (IH m (c + 1) H) as [F' T']. split; [assumption|lia].
    + destruct (IH m c H) as [F' T']. split; [assumption|lia].
Qed.

Lemma total_lower orderMap :
  nonEmptyIds orderMap ->
  (List.length orderMap + List.length (mergeLogs orderMap)
   <= totalOrderIds orderMap)%nat.
Proof.
  unfold mergeLogs.
  induction 1 as [|[k g] m Hg Hm IH]; [cbn; lia|].
  cbn [map filter snd List.length totalOrderIds] in *.
  destruct (Nat.ltb_spec 1 (List.length (ProcessedOrder.orderIds g)));
    cbn [map List.length]; lia.
Qed.

(** Without more counted rows than groups no group has two order ids. *)
Lemma no_merge_entries jsonData headerIndex :
  (Z.of_nat (List.length (fst (consolidate jsonData headerIndex)))
     <? snd (consolidate jsonData headerIndex)) = false ->
  mergeLogs (fst (consolidate jsonData headerIndex)) = [].
Proof.
  intros H. apply Z.ltb_ge in H. unfold consolidate in *.
  destruct (run_total (rowAt jsonData headerIndex)
                      (columnMapOf (rowAt jsonData headerIndex))
                      (skipn (S headerIndex) jsonData) [] 0 (Forall_nil _))
    as [F T].
  pose proof (total_lower _ F) as L.
  destruct (processRows _ _ _ _) as [m c].
  cbn [fst snd totalOrderIds] in *.
  apply length_zero_iff_nil. lia.
Qed.

Lemma consolidate_count jsonData headerIndex :
  snd (consolidate jsonData headerIndex) = countedCount jsonData headerIndex.
Proof. unfold consolidate, countedCount. now rewrite Loop.run_snd. Qed.

Lemma validated_le_counted jsonData headerIndex :
  validatedCount jsonData headerIndex <= countedCount jsonData headerIndex.
Proof.
  unfold validatedCount, countedCount. cbv zeta.
  induction (skipn (S headerIndex) jsonData) as [|r l IH]; [reflexivity|].
  cbn [filter]. unfold validated at 1.
  destruct (counted _ _ r); cbn [andb].
  - destruct (positive (quantityOf r)); cbn [List.length]; lia.
  - exact IH.
Qed.

Lemma prefix_app a b : prefix a (a ++ b) = true.
Proof.
  induction a as [|c a IH]; cbn; [now destruct b|].
  destruct (ascii_dec c c); [exact IH|contradiction].
Qed.

Lemma summary_isSummary count groups :
  isSummary (summaryEntry count groups) = true.
Proof.
  unfold summaryEntry, isSummary, warningMessage, infoMessage.
  destruct (groups <? count); cbn [logOf Log.message].
  - now rewrite prefix_app.
  - now rewrite prefix_app, orb_true_r.
Qed.

Lemma mergeLogs_no_summary orderMap :
  filter isSummary (mergeLogs orderMap) = [].
Proof.
  unfold mergeLogs.
  induction (filter _ (map snd orderMap)) as [|g l IH]; [reflexivity|].
  exact IH.
Qed.

Lemma mergeLogs_kind orderMap :
  forallb isMergeEntry (mergeLogs orderMap) = true.
Proof.
  unfold mergeLogs.
  induction (filter _ (map snd orderMap)) as [|g l IH]; [reflexivity|].
  exact IH.
Qed.

End Summary.

(** C3 (as amended): the log of a run that produces at least one group is
    one summary entry, then the merge entries of the groups in group order,
    then the completion entry; no other entry is a summary; the summary is
    a warning whenever the rows that pass all five skip conditions outnumber
    the groups, and an info whenever the rows that pass the first four do
    not outnumber the groups. *)
Theorem summary_entry (st : AppState) (jsonData : list Row) (headerIndex : nat) :
  located jsonData = Some headerIndex ->
  fst (consolidate jsonData headerIndex) <> [] ->
  let orderMap := fst (consolidate jsonData headerIndex) in
  let groups := Z.of_nat (List.length orderMap) in
  exists summary,
    logs (processFile st jsonData)
    = (summary :: mergeLogs orderMap ++ [completionEntry])%list
    /\ isSummary summary = true
    /\ List.length (filter isSummary (logs (processFile st jsonData))) = 1%nat
    /\ forallb isMergeEntry (mergeLogs orderMap) = true
    /\ (groups < validatedCount jsonData headerIndex ->
        Log.kind summary = Log.warning)
    /\ (countedCount jsonData headerIndex <= groups ->
        Log.kind summary = Log.info).
Proof.
  intros L NE. cbv zeta.
  rewrite Run.processFile_eq, L.
  pose proof (Summary.consolidate_count jsonData headerIndex) as C.
  pose proof (Summary.validated_le_counted jsonData headerIndex) as V.
  pose proof (Summary.no_merge_entries jsonData headerIndex) as M.
  destruct (consolidate jsonData headerIndex) as [m c].
  cbn [fst snd] in *. subst c.
  exists (summaryEntry (countedCount jsonData headerIndex)
                       (Z.of_nat (List.length m))).
  assert (E : (List.length m =? 0)%nat = false)
    by (destruct m; [contradiction|reflexivity]).
  assert (Logs : logs (finished st (m, countedCount jsonData headerIndex))
                 = (summaryEntry (countedCount jsonData headerIndex)
                                 (Z.of_nat (List.length m))
                      :: mergeLogs m ++ [completionEntry])%list).
  { cbn [finished logs]. rewrite E.
    destruct (Z.of_nat (List.length m) <? countedCount jsonData headerIndex);
      [reflexivity|].
    now rewrite M. }
  rewrite Logs. repeat split.
  - apply Summary.summary_isSummary.
  - cbn [filter]. rewrite Summary.summary_isSummary, filter_app,
      Summary.mergeLogs_no_summary. reflexivity.
  - apply Summary.mergeLogs_kind.
  - intros H. unfold summaryEntry.
    destruct (Z.ltb_spec (Z.of_nat (List.length m))
                         (countedCount jsonData headerIndex));
      [reflexivity|lia].
  - intros H. unfold summaryEntry.
    destruct (Z.ltb_spec (Z.of_nat (List.length m))
                         (countedCount jsonData headerIndex));
      [lia|reflexivity].
Qed.

Lemma summary_entry_witness :
  exists summary,
    logs (processFile initialState scenarioTable)
    = (summary :: mergeLogs (fst (consolidate scenarioTable 0))
               ++ [completionEntry])%list
    /\ Log.kind summary = Log.warning.
Proof.
  destruct (summary_entry initialState scenarioTable 0)
    as (summary & E & _ & _ & _ & W & _).
  - vm_compute. reflexivity.
  - vm_compute. discriminate.
  - exists summary. split; [exact E|].
    apply W. vm_compute. reflexivity.
Defined.

(** C3 as stated fails twice.  In the scenario of the specification the
    summary is the first entry of the log, before the merge entry.  In
    [zeroQuantityTable] one row passes all five skip conditions and one
    group is made, yet the summary is a warning: the row of quantity 0 was
    counted before its quantity was looked at. *)
Lemma summary_entry_counterexample :
  ~ summaryAfterMerges (logs (processFile initialState scenarioTable))
  /\ located zeroQuantityTable = Some 0%nat
  /\ validatedCount zeroQuantityTable 0 = 1
  /\ List.length (fst (consolidate zeroQuantityTable 0)) = 1%nat
  /\ ~ summaryKindByValidated zeroQuantityTable 0
                              (logs (processFile initialState zeroQuantityTable)).
Proof.
  split; [|split; [reflexivity|split; [reflexivity|split; [reflexivity|]]]].
  - intros H.
    specialize (H 1%nat 0%nat
                  (logOf Log.merge "MERGED: 田中 has 2 orders combined. IDs: o1, o2")
                  (logOf Log.warning
                         "⚠️ ATTENTION: 1 orders were merged into existing shipments.")).
    assert (1 < 0)%nat; [|lia].
    apply H; vm_compute; reflexivity.
  - intros H.
    specialize (H (logOf Log.warning
                         "⚠️ ATTENTION: 1 orders were merged into existing shipments.")).
    assert (K : Log.warning = Log.info); [|discriminate].
    apply H; [vm_compute; now left|vm_compute; reflexivity].
Qed.

(** ** Determinism *)

(** C9: a run depends on the rows only.  Whatever the state it starts from,
    the log it leaves is the same, entry by entry; either it sets the same
    output table or it sets none; two runs on the same freshly selected rows
    leave the same state, and running again on the same rows changes
    nothing. *)
Theorem processFile_deterministic (st1 st2 : AppState) (jsonData : list Row) :
  logs (processFile st1 jsonData) = logs (processFile st2 jsonData)
  /\ (processedWorkbook (processFile st1 jsonData)
      = processedWorkbook (processFile st2 jsonData)
      \/ (processedWorkbook (processFile st1 jsonData) = processedWorkbook st1
          /\ processedWorkbook (processFile st2 jsonData) = processedWorkbook st2))
  /\ processFile (handleFileUpload st1) jsonData
     = processFile (handleFileUpload st2) jsonData
  /\ processFile (processFile st1 jsonData) jsonData = processFile st1 jsonData.
Proof.
  rewrite !Run.processFile_eq.
  destruct (located jsonData) as [h|].
  - destruct (consolidate jsonData h) as [m c].
    unfold finished. cbn [logs processedWorkbook handleFileUpload setHasMerges
                          setStats setLogs setProcessedWorkbook].
    destruct (List.length m =? 0)%nat; repeat split; auto.
  - unfold failed. cbn. repeat split; auto.
Qed.

(** ** Numbers as text *)

Module Numeral.

Lemma str_digits d : JS.allDigits (NilEmpty.string_of_uint d) = true.
Proof. induction d; cbn; auto. Qed.

Lemma str_nonempty d : d <> Decimal.Nil -> NilEmpty.string_of_uint d <> "".
Proof. destruct d; intros H; [contradiction|discriminate ..]. Qed.

(** Reading a printed numeral from an accumulator, as [Pos.of_uint_acc]. *)
Lemma value_acc d :
  forall acc,
    JS.digitsValue (Z.pos acc) (NilEmpty.string_of_uint d)
    = Z.pos (Pos.of_uint_acc d acc).
Proof.
  induction d; intros acc; cbn [NilEmpty.string_of_uint JS.digitsValue Pos.of_uint_acc];
    [reflexivity|..];
    rewrite <- IHd; f_equal;
    try match goal with
        | |- context [JS.digitVal ?c] =>
            let v := eval vm_compute in (JS.digitVal c) in
            change (JS.digitVal c) with v
        end; lia.
Qed.

Lemma value d :
  JS.digitsValue 0 (NilEmpty.string_of_uint d) = Z.of_N (Pos.of_uint d).
Proof.
  induction d; cbn [NilEmpty.string_of_uint JS.digitsValue Pos.of_uint];
    [reflexivity|exact IHd|..];
    match goal with
    | |- JS.digitsValue ?a _ = _ =>
        let v := eval vm_compute in a in change a with v
    end; apply value_acc.
Qed.

Lemma string_of_pos p :
  JS.stringOfZ (Z.pos p) = NilEmpty.string_of_uint (Pos.to_uint p).
Proof.
  unfold JS.stringOfZ. cbn [Z.to_int NilZero.string_of_int].
  pose proof (DecimalPos.Unsigned.to_uint_nonnil p) as H.
  now destruct (Pos.to_uint p).
Qed.

(** The text of a number that is not negative: digits, at least one, and
    they read back as the number. *)
Lemma stringOfZ_nonneg n :
  0 <= n ->
  JS.stringOfZ n <> ""
  /\ JS.allDigits (JS.stringOfZ n) = true
  /\ JS.digitsValue 0 (JS.stringOfZ n) = n.
Proof.
  intros H. destruct n as [|p|p]; [repeat split; discriminate| |lia].
  rewrite string_of_pos. repeat split.
  - apply str_nonempty, DecimalPos.Unsigned.to_uint_nonnil.
  - apply str_digits.
  - now rewrite value, DecimalPos.Unsigned.of_to.
Qed.

Lemma digitsValue_nonneg s :
  forall acc, 0 <= acc -> JS.allDigits s = true -> 0 <= JS.digitsValue acc s.
Proof.
  induction s as [|c s IH]; intros acc Ha Hd; [assumption|].
  cbn in Hd. apply andb_true_iff in Hd as [Hc Hd]. cbn [JS.digitsValue].
  apply IH; [|assumption].
  apply Product.isDigit_code in Hc. unfold JS.digitVal. lia.
Qed.

Lemma trimStart_minus r : JS.trimStart (String "-" r) = String "-" r.
Proof. unfold JS.trimStart. now destruct r as [|c2 [|c3 r3]]. Qed.

End Numeral.

(** X1: [parseInt(String(n), 10)] is [n] for every safe integer [n], so a
    numeric quantity cell that holds a safe integer is read as that number
    (0 for the cell 0, which takes the fallback text). *)
Theorem quantity_of_number (n : Z) (row : Row) :
  safeInteger n ->
  JS.parseInt (JS.stringOfZ n) = Some n
  /\ (prop row "J" = Some (CNum n) -> quantityOf row = Some n).
Proof.
  intros _.
  assert (R : JS.parseInt (JS.stringOfZ n) = Some n).
  { destruct n as [|p|p]; [reflexivity| |].
    - destruct (Numeral.stringOfZ_nonneg (Z.pos p)) as (N & D & V); [lia|].
      now rewrite Product.parseInt_digits, V.
    - unfold JS.stringOfZ. cbn [Z.to_int NilZero.string_of_int].
      pose proof (DecimalPos.Unsigned.to_uint_nonnil p) as NN.
      pose proof (Numeral.string_of_pos p) as S.
      unfold JS.stringOfZ in S. cbn [Z.to_int NilZero.string_of_int] in S.
      rewrite S. unfold JS.parseInt. rewrite Numeral.trimStart_minus.
      rewrite Product.takeDigits_all by apply Numeral.str_digits.
      pose proof (Numeral.str_nonempty _ NN) as NE.
      destruct (NilEmpty.string_of_uint (Pos.to_uint p)) eqn:E; [contradiction|].
      rewrite <- E, Numeral.value, DecimalPos.Unsigned.of_to. reflexivity. }
  split; [exact R|].
  intros H. unfold quantityOf. rewrite H. cbn [truthy String_].
  destruct (Z.eqb_spec n 0) as [->|]; [reflexivity|exact R].
Qed.

Lemma quantity_of_number_witness :
  quantityOf [("A", CStr "o1"); ("J", CNum 12)] = Some 12.
Proof.
  apply (quantity_of_number 12 [("A", CStr "o1"); ("J", CNum 12)]).
  - unfold safeInteger. lia.
  - reflexivity.
Defined.

(** ** The normalizers *)

Module Normalize.

Lemma keepDigits_digits s : JS.allDigits (JS.keepDigits s) = true.
Proof.
  induction s as [|c s IH]; [reflexivity|].
  cbn [JS.keepDigits]. destruct (JS.isDigit c) eqn:E; [|exact IH].
  cbn [JS.allDigits]. now rewrite E.
Qed.

Lemma keepDigits_id s : JS.allDigits s = true -> JS.keepDigits s = s.
Proof.
  induction s as [|c s IH]; [reflexivity|].
  cbn [JS.allDigits JS.keepDigits]. intros H.
  apply andb_true_iff in H as [Hc Hs]. now rewrite Hc, IH.
Qed.

Lemma keepDigits_app a b :
  JS.keepDigits (a ++ b) = JS.keepDigits a ++ JS.keepDigits b.
Proof.
  induction a as [|c a IH]; [reflexivity|].
  cbn [append JS.keepDigits]. rewrite IH. now destruct (JS.isDigit c).
Qed.

(** A string of seven characters splits after the third. *)
Lemma split_seven s :
  String.length s = 7%nat ->
  substring 0 3 s ++ substring 3 4 s = s
  /\ String.length (substring 0 3 s) = 3%nat
  /\ String.length (substring 3 4 s) = 4%nat.
Proof.
  intros H.
  destruct s as [|c1 [|c2 [|c3 [|c4 [|c5 [|c6 [|c7 [|c8 s]]]]]]]];
    try discriminate.
  repeat split.
Qed.

Lemma not_paren_step c r :
  c <> "("%char ->
  JS.dropCountryCode (String c r) = String c (JS.dropCountryCode r).
Proof.
  intros H.
  destruct c as [[] [] [] [] [] [] [] []]; try reflexivity.
  now contradiction H.
Qed.

Lemma dropCountryCode_digits s :
  JS.allDigits s = true -> JS.dropCountryCode s = s.
Proof.
  induction s as [|c s IH]; [reflexivity|].
  cbn [JS.allDigits]. intros H. apply andb_true_iff in H as [Hc Hs].
  rewrite not_paren_step, IH; auto.
  intros ->. discriminate.
Qed.

End Normalize.

(** X2: [formatZip] never changes the digits of its argument.  It returns
    the text of the argument as it is, or, when that text holds exactly
    seven digits, the first three, a hyphen and the last four; formatting
    its own result again changes nothing. *)
Theorem formatZip_spec (zip : Value) :
  JS.keepDigits (formatZip zip) = JS.keepDigits (String_ zip)
  /\ (formatZip zip = String_ zip
      /\ String.length (JS.keepDigits (String_ zip)) <> 7%nat
      \/ exists a b,
          String.length a = 3%nat /\ String.length b = 4%nat
          /\ JS.allDigits a = true /\ JS.allDigits b = true
          /\ a ++ b = JS.keepDigits (String_ zip)
          /\ formatZip zip = a ++ "-" ++ b)
  /\ formatZip (Some (CStr (formatZip zip))) = formatZip zip.
Proof.
  unfold formatZip at 1 2 3 5.
  destruct (Nat.eqb_spec (String.length (JS.keepDigits (String_ zip))) 7)
    as [L|L].
  - destruct (Normalize.split_seven _ L) as (E & La & Lb).
    pose proof (Normalize.keepDigits_digits (String_ zip)) as D.
    rewrite <- E, Product.allDigits_app in D.
    apply andb_true_iff in D as [Da Db].
    assert (K : JS.keepDigits
                  (substring 0 3 (JS.keepDigits (String_ zip)) ++ "-"
                   ++ substring 3 4 (JS.keepDigits (String_ zip)))
                = JS.keepDigits (String_ zip)).
    { rewrite !Normalize.keepDigits_app.
      change (JS.keepDigits "-") with "".
      cbn [append].
      rewrite (Normalize.keepDigits_id _ Da), (Normalize.keepDigits_id _ Db).
      exact E. }
    split; [exact K|]. split.
    + right. do 2 eexists. repeat split; eauto.
    + unfold formatZip. cbn [String_]. rewrite K.
      rewrite (proj2 (Nat.eqb_eq _ _) L). reflexivity.
  - split; [reflexivity|]. split; [now left|].
    unfold formatZip. cbn [String_].
    now rewrite (proj2 (Nat.eqb_neq _ _) L).
Qed.

(** X3: [formatPhone] returns digits only, and cleaning its own result
    again changes nothing. *)
Theorem formatPhone_spec (phone : Value) :
  JS.allDigits (formatPhone phone) = true
  /\ formatPhone (Some (CStr (formatPhone phone))) = formatPhone phone.
Proof.
  unfold formatPhone. split.
  - apply Normalize.keepDigits_digits.
  - cbn [String_].
    rewrite Normalize.dropCountryCode_digits
      by apply Normalize.keepDigits_digits.
    apply Normalize.keepDigits_id, Normalize.keepDigits_digits.
Qed.

Module Compose.

Lemma hasLineTerminator_prefix a :
  forall b, hasLineTerminator (a ++ "*" ++ b) = false ->
            hasLineTerminator a = false.
Proof.
  induction a as [|c a IH]; intros b H; [reflexivity|].
  cbn [append hasLineTerminator] in *.
  apply orb_false_iff in H as [H1 H2].
  change ("*" ++ b) with (String "*" b) in H1.
  rewrite Product.lineTerminatorAt_star in H1.
  rewrite H1. cbn [orb]. exact (IH b H2).
Qed.

(** [calculateProduct] on a name of pack form. *)
Lemma packed base digits quantity :
  digits <> "" -> JS.allDigits digits = true ->
  hasLineTerminator base = false ->
  calculateProduct (base ++ "*" ++ digits) quantity
  = if quantity =? 1 then base ++ "*" ++ digits
    else base ++ "*" ++ JS.stringOfZ (JS.digitsValue 0 digits * quantity).
Proof.
  intros Hd Ha Hl. unfold calculateProduct.
  rewrite (Product.matchPack_complete base digits Hd Ha Hl).
  rewrite (Product.parseInt_digits digits Hd Ha).
  now destruct base.
Qed.

(** Applying a second quantity to a name that ends in the text of a number. *)
Lemma repacked base n quantity :
  0 <= n -> hasLineTerminator base = false ->
  calculateProduct (base ++ "*" ++ JS.stringOfZ n) quantity
  = base ++ "*" ++ JS.stringOfZ (n * quantity).
Proof.
  intros Hn Hl.
  destruct (Numeral.stringOfZ_nonneg n Hn) as (NE & D & V).
  rewrite (packed base _ quantity NE D Hl), V.
  destruct (Z.eqb_spec quantity 1) as [->|]; [now rewrite Z.mul_1_r|reflexivity].
Qed.

End Compose.

(** X4: on a name without line terminators, applying two positive
    quantities one after the other gives what applying their product gives
    at once, as long as that product, and the pack size of the name times
    it, are safe integers (every number met on the way is then one). *)
Theorem calculateProduct_compose (name : string) (q1 q2 : Z) :
  hasLineTerminator name = false -> 0 < q1 -> 0 < q2 ->
  safeInteger (q1 * q2) ->
  safeInteger (packSizeOf name * (q1 * q2)) ->
  calculateProduct (calculateProduct name q1) q2
  = calculateProduct name (q1 * q2).
Proof.
  intros Hl H1 H2 _ _.
  destruct (String.eqb_spec name "") as [->|Hn].
  - change (calculateProduct "" q1) with ("Unknown" ++ "*" ++ JS.stringOfZ q1).
    rewrite Compose.repacked by (reflexivity || lia). reflexivity.
  - destruct (matchPack name) as [[b d]|] eqn:M.
    + apply Product.matchPack_sound in M as [(-> & Hd & Ha) Hb].
      rewrite !(Compose.packed b d _ Hd Ha Hb).
      pose proof (Numeral.digitsValue_nonneg d 0 (Z.le_refl 0) Ha) as P.
      destruct (Z.eqb_spec q1 1) as [->|N1].
      * rewrite Z.mul_1_l. apply Compose.packed; assumption.
      * rewrite Compose.repacked by (assumption || nia).
        destruct (Z.eqb_spec (q1 * q2) 1) as [E|_]; [nia|].
        now rewrite Z.mul_assoc.
    + assert (E : forall q, calculateProduct name q = name ++ "*" ++ JS.stringOfZ q).
      { intros q. unfold calculateProduct.
        destruct (String.eqb_spec name ""); [contradiction|]. now rewrite M. }
      rewrite !E. apply Compose.repacked; [lia|assumption].
Qed.

Lemma calculateProduct_compose_witness :
  calculateProduct (calculateProduct "Box*4" 2) 3 = calculateProduct "Box*4" 6.
Proof.
  apply (calculateProduct_compose "Box*4" 2 3);
    [reflexivity|lia|lia|unfold safeInteger; lia|].
  change (packSizeOf "Box*4") with 4. unfold safeInteger. lia.
Defined.

(** ** Detection and classification *)

Module Case.

Lemma lowerChar_upper c :
  isUpper c = true -> isLower (JS.lowerChar c) = true.
Proof.
  unfold isUpper, isLower, JS.lowerChar. intros H. rewrite H.
  apply andb_true_iff in H as [H1 H2].
  apply Nat.leb_le in H1, H2.
  unfold JS.code in *. rewrite nat_ascii_embedding by lia.
  apply andb_true_iff. split; apply Nat.leb_le; lia.
Qed.

Lemma lowerChar_other c : isUpper c = false -> JS.lowerChar c = c.
Proof. unfold isUpper, JS.lowerChar. now intros ->. Qed.

Lemma lowerChar_not_upper c : isUpper (JS.lowerChar c) = false.
Proof.
  destruct (isUpper c) eqn:U.
  - apply lowerChar_upper in U. unfold isUpper, isLower in *.
    apply andb_true_iff in U as [U1 U2]. apply Nat.leb_le in U1.
    apply andb_false_iff. right. apply Nat.leb_gt. lia.
  - now rewrite lowerChar_other.
Qed.

(** A character that is no letter equals a lower-cased character exactly
    when it equals the character itself. *)
Lemma caseless_eq a c :
  isUpper a = false -> isLower a = false ->
  (a = JS.lowerChar c <-> a = c).
Proof.
  intros Ua La. destruct (isUpper c) eqn:Uc.
  - split; intros ->.
    + apply lowerChar_upper in Uc. congruence.
    + congruence.
  - now rewrite lowerChar_other.
Qed.

Lemma prefix_caseless k :
  noChar isUpper k = true -> noChar isLower k = true ->
  forall s, prefix k (JS.toLowerCase s) = prefix k s.
Proof.
  induction k as [|a k IH]; intros U L s; [now destruct s|].
  cbn [noChar] in U, L.
  apply andb_true_iff in U as [Ua U], L as [La L].
  apply negb_true_iff in Ua, La.
  destruct s as [|c s]; [reflexivity|].
  cbn [JS.toLowerCase prefix].
  pose proof (caseless_eq a c Ua La) as E.
  destruct (ascii_dec a (JS.lowerChar c)) as [H|H];
    destruct (ascii_dec a c) as [H'|H']; auto; tauto.
Qed.

(** Searching the lower-cased text for a keyword without letters is
    searching the text itself. *)
Lemma includes_caseless k :
  noChar isUpper k = true -> noChar isLower k = true ->
  forall s, JS.includes (JS.toLowerCase s) k = JS.includes s k.
Proof.
  intros U L. induction s as [|c s IH].
  - reflexivity.
  - cbn [JS.toLowerCase JS.includes].
    change (String (JS.lowerChar c) (JS.toLowerCase s))
      with (JS.toLowerCase (String c s)).
    now rewrite (prefix_caseless k U L (String c s)), IH.
Qed.

Lemma toLowerCase_no_upper s : noChar isUpper (JS.toLowerCase s) = true.
Proof.
  induction s as [|c s IH]; [reflexivity|].
  cbn [JS.toLowerCase noChar]. now rewrite lowerChar_not_upper, IH.
Qed.

Lemma prefix_no_upper k :
  forall t, prefix k t = true -> noChar isUpper t = true ->
            noChar isUpper k = true.
Proof.
  induction k as [|a k IH]; intros t P N; [reflexivity|].
  destruct t as [|c t]; [discriminate|].
  cbn [prefix] in P. destruct (ascii_dec a c) as [->|]; [|discriminate].
  cbn [noChar] in *. apply andb_true_iff in N as [Nc Nt].
  now rewrite Nc, (IH t P Nt).
Qed.

(** A keyword with a capital letter is never found in a lower-cased text. *)
Lemma includes_upper k :
  noChar isUpper k = false ->
  forall s, JS.includes (JS.toLowerCase s) k = false.
Proof.
  intros K s.
  assert (G : forall t, noChar isUpper t = true -> JS.includes t k = false).
  { induction t as [|c t IH]; intros N; cbn [JS.includes].
    - destruct (prefix k "") eqn:P; [|reflexivity].
      apply prefix_no_upper in P; [congruence|reflexivity].
    - destruct (prefix k (String c t)) eqn:P.
      + apply prefix_no_upper in P; [congruence|assumption].
      + apply IH. cbn [noChar] in N. now apply andb_true_iff in N as [_ N]. }
  apply G, toLowerCase_no_upper.
Qed.

Lemma japanese_keywords s :
  JS.includes (JS.toLowerCase s) "注文" = JS.includes s "注文"
  /\ JS.includes (JS.toLowerCase s) "電話" = JS.includes s "電話".
Proof. split; now apply includes_caseless. Qed.

Lemma fixed_is_tiktok row :
  fixedSignature row = true -> columnMapOf row = tiktokMap.
Proof.
  unfold fixedSignature, columnMapOf, isTikTokFormat. cbv zeta. intros H.
  rewrite <- (proj1 (japanese_keywords _)), <- (proj2 (japanese_keywords _)).
  now rewrite H.
Qed.

End Case.

(** X5: a returned index is never out of range and always designates a row
    that passes one of the two checks: the result is -1, or the index of a
    row, among the first 20, with the fixed-layout signature or with two
    keywords. *)
Theorem findHeaderRow_sound (jsonData : list Row) :
  findHeaderRow jsonData = -1
  \/ exists i,
      findHeaderRow jsonData = Z.of_nat i
      /\ (i < List.length jsonData)%nat /\ (i < 20)%nat
      /\ (fixedSignature (rowAt jsonData i) = true
          \/ keywordMatch (rowAt jsonData i) = true).
Proof.
  unfold findHeaderRow.
  destruct (firstFrom fixedSignature jsonData 0 _) as [i|] eqn:F.
  - right. exists i. apply Header.firstFrom_some in F as (B & T & _).
    repeat split; auto; lia.
  - destruct (firstFrom keywordMatch jsonData 0 _) as [i|] eqn:K; [|now left].
    right. exists i. apply Header.firstFrom_some in K as (B & T & _).
    repeat split; auto; lia.
Qed.

(** X6: the classification of a header row agrees with the fixed-layout
    check of the detection, although the two are written differently (the
    classification searches the Japanese keywords in the text that was not
    lower-cased). *)
Theorem isTikTokFormat_fixedSignature (row : Row) :
  isTikTokFormat row = fixedSignature row.
Proof.
  unfold isTikTokFormat, fixedSignature. cbv zeta.
  rewrite (Case.includes_caseless "注文") by reflexivity.
  rewrite (Case.includes_caseless "電話") by reflexivity.
  reflexivity.
Qed.

(** X7: the keyword 注文ID is never found, since it is searched in
    lower-cased text: under the generic layout only "order id" and
    "orderid" name the order-id column, and a header row that names its
    columns in Japanese, the order id by 注文ID, is not detected. *)
Theorem dead_keyword :
  (forall s, JS.includes (JS.toLowerCase s) "注文ID" = false)
  /\ (forall value,
         cellMatches Field.orderId value
         = let valStr := JS.toLowerCase (JS.trim (String_ (Some value))) in
           JS.includes valStr "order id" || JS.includes valStr "orderid")
  /\ findHeaderRow [japaneseHeader; japaneseHeader] = -1.
Proof.
  assert (D : forall s, JS.includes (JS.toLowerCase s) "注文ID" = false)
    by (apply Case.includes_upper; reflexivity).
  split; [exact D|]. split; [|reflexivity].
  intros value. unfold cellMatches, mentions.
  change (keywordsFor Field.orderId) with ["注文ID"; "order id"; "orderid"].
  cbn [existsb]. now rewrite D, orb_false_r.
Qed.

(** X8: a table of at least two rows with the fixed-layout signature in one
    of its first 20 rows always gets to the row loop: the header is the
    first such row and the columns are the fixed ones (order id in A, name
    in AL, zip in AP, address in AQ to AU, phone in AW), whatever the other
    header cells say. *)
Theorem fixed_layout_located (jsonData : list Row) (i : nat) :
  (2 <= List.length jsonData)%nat ->
  (i < List.length jsonData)%nat -> (i < 20)%nat ->
  fixedSignature (rowAt jsonData i) = true ->
  exists headerIndex,
    located jsonData = Some headerIndex
    /\ (headerIndex <= i)%nat
    /\ fixedSignature (rowAt jsonData headerIndex) = true
    /\ columnMapOf (rowAt jsonData headerIndex) = tiktokMap
    /\ map tiktokMap [Field.orderId; Field.name; Field.zip; Field.prefecture;
                      Field.city; Field.town; Field.addr1; Field.addr2;
                      Field.phone]
       = map Some ["A"; "AL"; "AP"; "AQ"; "AR"; "AS"; "AT"; "AU"; "AW"].
Proof.
  intros L Hi Hi' T.
  destruct (firstFrom fixedSignature jsonData 0
                      (Nat.min (List.length jsonData) 20)) as [h|] eqn:F.
  - pose proof (Header.firstFrom_some _ _ _ _ _ F) as (B & Th & Lo).
    assert (Hle : (h <= i)%nat).
    { destruct (Nat.le_gt_cases h i) as [|G]; [assumption|].
      rewrite (Lo i) in T by lia. discriminate. }
    assert (FH : findHeaderRow jsonData = Z.of_nat h)
      by (unfold findHeaderRow; now rewrite F).
    assert (CM : columnMapOf (rowAt jsonData h) = tiktokMap)
      by (now apply Case.fixed_is_tiktok).
    exists h. repeat split; auto.
    unfold located. rewrite FH, Nat2Z.id, CM.
    destruct (Nat.ltb_spec (List.length jsonData) 2); [lia|].
    destruct (Z.eqb_spec (Z.of_nat h) (-1)); [lia|]. reflexivity.
  - pose proof (Header.firstFrom_none _ _ _ _ F i) as N.
    rewrite N in T by lia. discriminate.
Qed.

Lemma fixed_layout_located_witness :
  exists headerIndex,
    located priorityTable = Some headerIndex /\ (headerIndex <= 2)%nat.
Proof.
  destruct (fixed_layout_located priorityTable 2) as (h & L & B & _).
  - cbn. lia.
  - cbn. lia.
  - lia.
  - reflexivity.
  - exists h. split; assumption.
Defined.

(** X9: under the generic layout a field is only ever mapped to a column of
    the header row, and only to one whose cell names the field. *)
Theorem genericMap_sound (headerRow : Row) (field : Field.t) (key : string) :
  genericMap headerRow field = Some key ->
  exists value, In (key, value) headerRow /\ cellMatches field value = true.
Proof.
  unfold genericMap.
  assert (G : forall m,
             fold_left mapHeaderCell headerRow m field = Some key ->
             m field = Some key
             \/ exists value, In (key, value) headerRow
                              /\ cellMatches field value = true).
  { induction headerRow as [|[k v] r IH]; intros m H; [now left|].
    cbn [fold_left] in H. apply IH in H as [H|(value & I & C)].
    - rewrite Mapping.mapHeaderCell_field in H.
      destruct (cellMatches field v) eqn:C.
      + inversion H; subst. right. exists v. split; [now left|assumption].
      + now left.
    - right. exists value. split; [now right|assumption]. }
  intros H. apply G in H as [H|H]; [discriminate|exact H].
Qed.

Lemma genericMap_sound_witness :
  exists value,
    In ("B", value) [("A", CStr "Phone"); ("B", CStr "Order ID")]
    /\ cellMatches Field.orderId value = true.
Proof.
  apply (genericMap_sound [("A", CStr "Phone"); ("B", CStr "Order ID")]
                          Field.orderId "B").
  reflexivity.
Defined.

(** ** Groups in closed form *)

Module Closed.

Section Form.
Variable headerRow : Row.
Variable columnMap : ColumnMap.

Lemma groupFor_expected key rows :
  groupFor headerRow columnMap key rows
  = expectedGroup columnMap key (rowsFor headerRow columnMap key rows).
Proof.
  destruct (groupFor headerRow columnMap key rows) as [g|] eqn:G.
  - pose proof (Groups.group_id _ _ _ _ _ G) as I.
    pose proof (Groups.group_contents _ _ _ _ _ G) as [P O].
    unfold groupFor in G.
    destruct (rowsFor headerRow columnMap key rows) as [|first rest];
      [discriminate|].
    inversion G as [E]. clear G.
    assert (R : ProcessedOrder.receiver g = receiverOf columnMap first)
      by (rewrite <- E; now rewrite Groups.absorbed_receiver).
    rewrite E. unfold expectedGroup. f_equal.
    destruct g as [gi go gr gp]. cbn in I, P, O, R. now subst.
  - unfold groupFor in G.
    now destruct (rowsFor headerRow columnMap key rows).
Qed.

Lemma validated_fields row :
  validated headerRow columnMap row = true ->
  JS.allDigits (cleanPhoneOf columnMap row) = true
  /\ (8 <= String.length (cleanPhoneOf columnMap row))%nat
  /\ cleanOrderIdOf columnMap row <> ""
  /\ exists quantity, quantityOf row = Some quantity /\ 0 < quantity.
Proof.
  unfold validated, counted. intros H.
  apply andb_true_iff in H as [H Q].
  apply andb_true_iff in H as [H O].
  apply andb_true_iff in H as [_ P].
  apply negb_true_iff in O, P. apply orb_false_iff in P as [_ P].
  apply Nat.ltb_ge in P. apply Nat.eqb_neq in O.
  repeat split.
  - apply Normalize.keepDigits_digits.
  - exact P.
  - intros E. rewrite E in O. now apply O.
  - unfold positive in Q. destruct (quantityOf row) as [q|]; [|discriminate].
    exists q. split; [reflexivity|]. now apply Z.ltb_lt.
Qed.

Lemma length_fold_setAdd l :
  forall s, (List.length (fold_left setAdd l s)
             <= List.length s + List.length l)%nat.
Proof.
  induction l as [|x l IH]; intros s; cbn [fold_left List.length]; [lia|].
  specialize (IH (setAdd s x)).
  pose proof (Summary.length_setAdd s x). lia.
Qed.

Lemma fold_setAdd_extends l :
  forall s, exists t, fold_left setAdd l s = (s ++ t)%list.
Proof.
  induction l as [|x l IH]; intros s; cbn [fold_left].
  - exists []. now rewrite app_nil_r.
  - destruct (IH (setAdd s x)) as [t E]. rewrite E. unfold setAdd.
    destruct (existsb (String.eqb x) s).
    + now exists t.
    + exists (x :: t). now rewrite <- app_assoc.
Qed.

End Form.

End Closed.

(** X10: after any rows, the group stored under a merge key is known in
    closed form from the validated rows of that key alone: it exists when
    there is one, takes its receiver from the first, holds one product per
    row in row order and the order ids in order of first occurrence. *)
Theorem group_closed_form
        (headerRow : Row) (columnMap : ColumnMap) (rows : list Row)
        (count : Z) (key : string) :
  mapGet (fst (processRows headerRow columnMap rows ([], count))) key
  = expectedGroup columnMap key (rowsFor headerRow columnMap key rows).
Proof.
  rewrite Groups.contents. apply Closed.groupFor_expected.
Qed.

(** X11: a group never loses anything as more rows are processed: it keeps
    its receiver, and its products and order ids only grow at the end. *)
Theorem group_monotone
        (headerRow : Row) (columnMap : ColumnMap) (rows1 rows2 : list Row)
        (count : Z) (key : string) (g1 : ProcessedOrder.t) :
  mapGet (fst (processRows headerRow columnMap rows1 ([], count))) key = Some g1 ->
  exists g2 products ids,
    mapGet (fst (processRows headerRow columnMap (rows1 ++ rows2) ([], count))) key
    = Some g2
    /\ ProcessedOrder.receiver g2 = ProcessedOrder.receiver g1
    /\ ProcessedOrder.products g2 = (ProcessedOrder.products g1 ++ products)%list
    /\ ProcessedOrder.orderIds g2 = (ProcessedOrder.orderIds g1 ++ ids)%list.
Proof.
  rewrite !Groups.contents, !Closed.groupFor_expected, Groups.rowsFor_app.
  destruct (rowsFor headerRow columnMap key rows1) as [|first rest];
    [discriminate|].
  intros H. inversion H; subst; clear H.
  cbn [app expectedGroup ProcessedOrder.receiver ProcessedOrder.products
       ProcessedOrder.orderIds].
  change (first :: (rest ++ rowsFor headerRow columnMap key rows2))%list
    with ((first :: rest) ++ rowsFor headerRow columnMap key rows2)%list.
  rewrite !map_app, fold_left_app.
  destruct (Closed.fold_setAdd_extends
              (map (cleanOrderIdOf columnMap)
                   (rowsFor headerRow columnMap key rows2))
              (fold_left setAdd
                         (map (cleanOrderIdOf columnMap) (first :: rest)) []))
    as [t E].
  eexists _, _, t. repeat split. exact E.
Qed.

Lemma group_monotone_witness :
  exists g2 products ids,
    mapGet (fst (consolidate scenarioTable 0)) "09012345678|123-4567|Tokyo|田中"
    = Some g2
    /\ ProcessedOrder.receiver g2
       = receiverOf tiktokMap (rowAt scenarioTable 1)
    /\ ProcessedOrder.products g2 = (["Box*4"] ++ products)%list
    /\ ProcessedOrder.orderIds g2 = (["o1"] ++ ids)%list.
Proof.
  apply (group_monotone tiktokHeader tiktokMap
                        [rowAt scenarioTable 1] [rowAt scenarioTable 2] 0
                        "09012345678|123-4567|Tokyo|田中"
                        (freshGroup tiktokMap (rowAt scenarioTable 1))).
  vm_compute. reflexivity.
Defined.

(** X12: groups do not interfere: a row that is not validated, or whose
    merge key is another one, leaves the group of a key exactly as it is
    without the row. *)
Theorem group_isolated
        (headerRow : Row) (columnMap : ColumnMap) (pre post : list Row)
        (row : Row) (count : Z) (key : string) :
  validated headerRow columnMap row = false \/ keyOf columnMap row <> key ->
  mapGet (fst (processRows headerRow columnMap (pre ++ row :: post) ([], count))) key
  = mapGet (fst (processRows headerRow columnMap (pre ++ post) ([], count))) key.
Proof.
  intros H. rewrite !Groups.contents. unfold groupFor.
  rewrite !Groups.rowsFor_app, Groups.rowsFor_cons.
  replace (validated headerRow columnMap row
           && (keyOf columnMap row =? key)%string) with false; [reflexivity|].
  symmetry. apply andb_false_iff.
  destruct H as [H|H]; [now left|right]. now apply String.eqb_neq.
Qed.

Lemma group_isolated_witness :
  mapGet (fst (processRows tiktokHeader tiktokMap
                           ([] ++ rowAt zeroQuantityTable 2
                               :: [rowAt zeroQuantityTable 1]) ([], 0)))
         "09012345678|123-4567|Tokyo|Sato"
  = mapGet (fst (processRows tiktokHeader tiktokMap
                             ([] ++ [rowAt zeroQuantityTable 1]) ([], 0)))
           "09012345678|123-4567|Tokyo|Sato".
Proof.
  apply (group_isolated tiktokHeader tiktokMap []
                        [rowAt zeroQuantityTable 1]
                        (rowAt zeroQuantityTable 2) 0).
  left. vm_compute. reflexivity.
Defined.

Module Keys.

Lemma mapHas_keys orderMap key :
  mapHas orderMap key = existsb (String.eqb key) (map fst orderMap).
Proof.
  induction orderMap as [|[k g] m IH]; [reflexivity|].
  cbn [mapHas existsb map fst]. unfold mapHas in IH.
  now rewrite IH, String.eqb_sym.
Qed.

Lemma modify_keys orderMap key f :
  map fst (mapModify orderMap key f) = map fst orderMap.
Proof.
  induction orderMap as [|[k g] m IH]; [reflexivity|].
  cbn [mapModify]. destruct (k =? key)%string; cbn [map fst]; [reflexivity|].
  now rewrite IH.
Qed.

Lemma place_keys columnMap orderMap row :
  map fst (place columnMap orderMap row)
  = setAdd (map fst orderMap) (keyOf columnMap row).
Proof.
  unfold place, setAdd. rewrite mapHas_keys.
  destruct (existsb _ (map fst orderMap)).
  - apply modify_keys.
  - now rewrite map_app.
Qed.

Lemma run_keys headerRow columnMap rows :
  forall orderMap count,
    map fst (fst (processRows headerRow columnMap rows (orderMap, count)))
    = fold_left setAdd
                (map (keyOf columnMap) (filter (validated headerRow columnMap) rows))
                (map fst orderMap).
Proof.
  induction rows as [|row rows IH]; intros m c; [reflexivity|].
  rewrite Loop.run_cons, Loop.processRow_eq, IH. cbn [filter].
  destruct (validated headerRow columnMap row); [|reflexivity].
  cbn [map fold_left]. now rewrite place_keys.
Qed.

Lemma fold_setAdd_nil l : fold_left setAdd l [] = [] <-> l = [].
Proof.
  split; [|now intros ->].
  destruct l as [|x l]; [reflexivity|]. cbn [fold_left].
  destruct (Closed.fold_setAdd_extends l (setAdd [] x)) as [t E].
  rewrite E. discriminate.
Qed.

End Keys.

(** X13: the groups stand in the map, and so in the output table, in the
    order in which their merge keys first occur among the validated rows;
    no key occurs twice. *)
Theorem groups_in_first_occurrence_order
        (headerRow : Row) (columnMap : ColumnMap) (rows : list Row) (count : Z) :
  let orderMap := fst (processRows headerRow columnMap rows ([], count)) in
  map fst orderMap
  = fold_left setAdd
              (map (keyOf columnMap) (filter (validated headerRow columnMap) rows))
              []
  /\ NoDup (map fst orderMap).
Proof.
  cbv zeta. rewrite Keys.run_keys. split; [reflexivity|].
  apply Groups.fold_setAdd_NoDup. constructor.
Qed.

(** X14: there are never more groups than validated rows, and there is no
    group exactly when no data row passes the five checks. *)
Theorem groups_and_validated_rows (jsonData : list Row) (headerIndex : nat) :
  let orderMap := fst (consolidate jsonData headerIndex) in
  Z.of_nat (List.length orderMap) <= validatedCount jsonData headerIndex
  /\ (orderMap = [] <-> validatedCount jsonData headerIndex = 0).
Proof.
  cbv zeta. unfold consolidate, validatedCount.
  set (hr := rowAt jsonData headerIndex).
  set (rows := skipn (S headerIndex) jsonData).
  pose proof (Keys.run_keys hr (columnMapOf hr) rows [] 0) as K.
  cbn [map] in K.
  pose proof (Closed.length_fold_setAdd
                (map (keyOf (columnMapOf hr))
                     (filter (validated hr (columnMapOf hr)) rows)) []) as L.
  rewrite <- K, !length_map in L. cbn [List.length] in L.
  cbn [Nat.add] in L.
  split; [apply Nat2Z.inj_le; exact L|].
  split.
  - intros E. apply (f_equal (map fst)) in E. cbn [map] in E.
    assert (F : fold_left setAdd
                          (map (keyOf (columnMapOf hr))
                               (filter (validated hr (columnMapOf hr)) rows)) []
                = []) by (rewrite <- K; exact E).
    apply (proj1 (Keys.fold_setAdd_nil _)) in F. apply map_eq_nil in F.
    now rewrite F.
  - intros E.
    assert (N : filter (validated hr (columnMapOf hr)) rows = [])
      by (apply length_zero_iff_nil; apply Nat2Z.inj; exact E).
    rewrite N in K. cbn in K. now apply map_eq_nil in K.
Qed.

(** ** Well-formed groups and keys *)

Module Bars.

Lemma digits_noBar s : JS.allDigits s = true -> noBar s = true.
Proof.
  unfold noBar. induction s as [|c s IH]; [reflexivity|].
  cbn [JS.allDigits noChar]. intros H. apply andb_true_iff in H as [Hc Hs].
  rewrite (IH Hs), andb_true_r. apply negb_true_iff.
  apply Ascii.eqb_neq. intros ->. discriminate.
Qed.

(** Two texts cut at their first separator are cut alike. *)
Lemma split a :
  forall b x y,
    noBar a = true -> noBar b = true ->
    a ++ "|" ++ x = b ++ "|" ++ y -> a = b /\ x = y.
Proof.
  unfold noBar. induction a as [|c a IH]; intros b x y Na Nb E.
  - destruct b as [|c' b]; cbn in E.
    + inversion E. auto.
    + inversion E; subst. cbn in Nb. discriminate.
  - destruct b as [|c' b]; cbn in E.
    + inversion E; subst. cbn in Na. discriminate.
    + inversion E; subst. cbn [noChar] in Na, Nb.
      apply andb_true_iff in Na as [_ Na], Nb as [_ Nb].
      destruct (IH b x y Na Nb H1) as [-> ->]. auto.
Qed.

End Bars.

(** X15: every group is well formed: it is stored under the merge key of
    its own receiver, the receiver's phone is eight digits or more and
    nothing but digits, it has at least one order id and never more order
    ids than products, and no order id is empty. *)
Theorem group_well_formed
        (headerRow : Row) (columnMap : ColumnMap) (rows : list Row)
        (count : Z) (key : string) (g : ProcessedOrder.t) :
  mapGet (fst (processRows headerRow columnMap rows ([], count))) key = Some g ->
  let r := ProcessedOrder.receiver g in
  ProcessedOrder.id g = key
  /\ key = mergeKeyOf (Receiver.phone r) (Receiver.zip r)
                      (Receiver.address r) (Receiver.name r)
  /\ JS.allDigits (Receiver.phone r) = true
  /\ (8 <= String.length (Receiver.phone r))%nat
  /\ (1 <= List.length (ProcessedOrder.orderIds g)
      <= List.length (ProcessedOrder.products g))%nat
  /\ ~ In "" (ProcessedOrder.orderIds g).
Proof.
  rewrite Groups.contents, Closed.groupFor_expected.
  destruct (rowsFor headerRow columnMap key rows) as [|first rest] eqn:R;
    [discriminate|].
  intros H. inversion H; subst; clear H. cbv zeta.
  cbn [ProcessedOrder.id ProcessedOrder.receiver ProcessedOrder.orderIds
       ProcessedOrder.products receiverOf Receiver.phone Receiver.zip
       Receiver.address Receiver.name].
  assert (Rows : forall row, In row (first :: rest) ->
                             validated headerRow columnMap row = true
                             /\ keyOf columnMap row = key).
  { intros row I. rewrite <- R in I. apply filter_In in I as [_ I].
    apply andb_true_iff in I as [V K]. now apply String.eqb_eq in K. }
  destruct (Rows first (or_introl eq_refl)) as [V K].
  destruct (Closed.validated_fields headerRow columnMap first V) as (D & L & _).
  split; [reflexivity|]. split; [now rewrite <- K|].
  split; [exact D|]. split; [exact L|]. split; [split|].
  - cbn [map fold_left].
    destruct (Closed.fold_setAdd_extends
                (map (cleanOrderIdOf columnMap) rest)
                (setAdd [] (cleanOrderIdOf columnMap first))) as [t E].
    rewrite E. cbn. lia.
  - pose proof (Closed.length_fold_setAdd
                  (map (cleanOrderIdOf columnMap) (first :: rest)) []) as B.
    rewrite !length_map in B. cbn [List.length Nat.add] in B.
    cbn [List.length]. rewrite length_map. exact B.
  - intros I.
    apply (proj1 (Groups.fold_setAdd_in
                    (map (cleanOrderIdOf columnMap) (first :: rest)) [] ""))
      in I.
    destruct I as [[]|I].
    destruct (proj1 (in_map_iff _ _ _) I) as (row & E & I').
    destruct (Rows row I') as [V' _].
    destruct (Closed.validated_fields headerRow columnMap row V') as (_ & _ & N & _).
    contradiction.
Qed.

Lemma group_well_formed_witness :
  ProcessedOrder.id scenarioGroup = "09012345678|123-4567|Tokyo|田中"
  /\ (1 <= List.length (ProcessedOrder.orderIds scenarioGroup)
      <= List.length (ProcessedOrder.products scenarioGroup))%nat.
Proof.
  destruct (group_well_formed tiktokHeader tiktokMap
                              (skipn 1 scenarioTable) 0
                              "09012345678|123-4567|Tokyo|田中" scenarioGroup)
    as (I & _ & _ & _ & B & _).
  - vm_compute. reflexivity.
  - split; assumption.
Defined.

(** X16: the merge key tells the four fields apart as long as the zip and
    the address hold no vertical bar: two rows with the same key then have
    the same phone, zip, address and name. *)
Theorem mergeKey_injective (columnMap : ColumnMap) (r1 r2 : Row) :
  noBar (cleanZipOf columnMap r1) = true ->
  noBar (cleanZipOf columnMap r2) = true ->
  noBar (fullAddressOf r1 columnMap) = true ->
  noBar (fullAddressOf r2 columnMap) = true ->
  keyOf columnMap r1 = keyOf columnMap r2 ->
  cleanPhoneOf columnMap r1 = cleanPhoneOf columnMap r2
  /\ cleanZipOf columnMap r1 = cleanZipOf columnMap r2
  /\ fullAddressOf r1 columnMap = fullAddressOf r2 columnMap
  /\ cleanNameOf columnMap r1 = cleanNameOf columnMap r2.
Proof.
  intros Z1 Z2 A1 A2 K. unfold keyOf, mergeKeyOf in K.
  apply Bars.split in K as [P K];
    try (apply Bars.digits_noBar, Normalize.keepDigits_digits).
  apply Bars.split in K as [Z K]; try assumption.
  apply Bars.split in K as [A N]; try assumption.
  auto.
Qed.

Lemma mergeKey_injective_witness :
  cleanPhoneOf tiktokMap (rowAt scenarioTable 1)
  = cleanPhoneOf tiktokMap (rowAt scenarioTable 2)
  /\ cleanZipOf tiktokMap (rowAt scenarioTable 1)
     = cleanZipOf tiktokMap (rowAt scenarioTable 2)
  /\ fullAddressOf (rowAt scenarioTable 1) tiktokMap
     = fullAddressOf (rowAt scenarioTable 2) tiktokMap
  /\ cleanNameOf tiktokMap (rowAt scenarioTable 1)
     = cleanNameOf tiktokMap (rowAt scenarioTable 2).
Proof.
  apply (mergeKey_injective tiktokMap (rowAt scenarioTable 1)
                            (rowAt scenarioTable 2));
    vm_compute; reflexivity.
Defined.

(** X17: the header row met again among the data rows is skipped: it is
    neither counted nor grouped, whatever the column map, and the run goes
    on as if it were not there. *)
Theorem repeated_header_skipped
        (headerRow : Row) (columnMap : ColumnMap) (pre post : list Row)
        (st : OrderMap * Z) :
  counted headerRow columnMap headerRow = false
  /\ processRows headerRow columnMap (pre ++ headerRow :: post) st
     = processRows headerRow columnMap (pre ++ post) st.
Proof.
  assert (C : counted headerRow columnMap headerRow = false).
  { unfold counted, cleanOrderIdOf, strOrEmpty.
    destruct (truthy (cell headerRow columnMap Field.orderId)); [|reflexivity].
    now rewrite String.eqb_refl. }
  split; [exact C|].
  rewrite !Loop.run_app, Loop.run_cons.
  destruct (processRows headerRow columnMap pre st) as [m c].
  rewrite Loop.processRow_eq. unfold validated. now rewrite C.
Qed.

Lemma groups_and_validated_rows_witness :
  fst (consolidate [tiktokHeader; tiktokHeader] 0) = [].
Proof.
  apply (proj2 (groups_and_validated_rows [tiktokHeader; tiktokHeader] 0)).
  vm_compute. reflexivity.
Defined.

(** ** Statistics, the file name and the width of the table *)

(** X18: what a run leaves in the statistics.  A run that gets to the row
    loop reports the rows that pass the first four checks, twice, and the
    number of groups, which is never larger; it flags merges exactly when
    the first exceeds the second, and the difference, which the warning
    announces, is at least the number of merge entries.  A run that throws
    leaves the statistics and the workbook of the state it started from. *)
Theorem run_statistics (st : AppState) (jsonData : list Row) :
  let st' := processFile st jsonData in
  match located jsonData with
  | Some headerIndex =>
      let orderMap := fst (consolidate jsonData headerIndex) in
      let groups := Z.of_nat (List.length orderMap) in
      let lines := countedCount jsonData headerIndex in
      stats st' = {| totalLines := lines; validOrders := lines;
                     mergedGroups := groups |}
      /\ groups <= lines
      /\ hasMerges st' = (groups <? lines)
      /\ Z.of_nat (List.length (mergeLogs orderMap)) <= lines - groups
  | None =>
      stats st' = stats st
      /\ processedWorkbook st' = processedWorkbook st
      /\ hasMerges st' = false
  end.
Proof.
  cbv zeta. rewrite Run.processFile_eq.
  destruct (located jsonData) as [h|]; [|repeat split].
  pose proof (Summary.consolidate_count jsonData h) as C.
  unfold consolidate in *.
  destruct (Summary.run_total (rowAt jsonData h)
                              (columnMapOf (rowAt jsonData h))
                              (skipn (S h) jsonData) [] 0 (Forall_nil _))
    as [F T].
  pose proof (Summary.total_lower _ F) as L.
  destruct (processRows _ _ _ _) as [m c].
  cbn [fst snd totalOrderIds finished stats hasMerges] in *. subst c.
  repeat split; lia.
Qed.

Module FileName.

Lemma small n :
  0 <= n < 32 -> In n (map Z.of_nat (seq 0 32)).
Proof.
  intros H. apply in_map_iff. exists (Z.to_nat n).
  split; [lia|]. apply in_seq. lia.
Qed.

(** A number below 32, padded: two digits that read back as the number. *)
Lemma two_digits n :
  0 <= n < 32 ->
  let s := padStart 2 "0" (JS.stringOfZ n) in
  String.length s = 2%nat /\ JS.allDigits s = true /\ JS.digitsValue 0 s = n.
Proof.
  intros H. apply small in H. cbn [seq map] in H.
  repeat (destruct H as [<-|H]; [vm_compute; auto|]).
  destruct H.
Qed.

End FileName.

(** X19: [downloadFile] writes nothing without a workbook; with one it
    writes that workbook under the fixed prefix, the month and the day of
    the month, each as two digits that read back as the month (counted from
    1) and the day, a period between them, and the extension. *)
Theorem downloadFile_name (workbook : WorkBook) (getMonth getDate : Z) :
  0 <= getMonth <= 11 -> 1 <= getDate <= 31 ->
  downloadFile None getMonth getDate = None
  /\ exists month day,
      downloadFile (Some workbook) getMonth getDate
      = Some ("邮局小包-Capypie" ++ month ++ "." ++ day ++ ".xlsx", workbook)
      /\ String.length month = 2%nat /\ String.length day = 2%nat
      /\ JS.allDigits month = true /\ JS.allDigits day = true
      /\ JS.digitsValue 0 month = getMonth + 1
      /\ JS.digitsValue 0 day = getDate.
Proof.
  intros M D. split; [reflexivity|].
  destruct (FileName.two_digits (getMonth + 1)) as (L1 & A1 & V1); [lia|].
  destruct (FileName.two_digits getDate) as (L2 & A2 & V2); [lia|].
  eexists _, _. split; [reflexivity|]. auto 10.
Qed.

Lemma downloadFile_name_witness :
  exists month day,
    downloadFile (Some (newWorkbook [])) 10 3
    = Some ("邮局小包-Capypie" ++ month ++ "." ++ day ++ ".xlsx", newWorkbook [])
    /\ JS.digitsValue 0 month = 11 /\ JS.digitsValue 0 day = 3.
Proof.
  destruct (downloadFile_name (newWorkbook []) 10 3)
    as (_ & month & day & E & _ & _ & _ & _ & Vm & Vd); [lia|lia|].
  exists month, day. auto.
Defined.

(** X20: every table has the same width throughout: three empty rows, then
    the header row and one row for each output row, all of 22 cells, as
    many as there are column widths. *)
Theorem table_width (rows : list RowData.t) :
  firstn 3 (wsDataOf rows) = [[]; []; []]
  /\ List.length (wsDataOf rows) = (4 + List.length rows)%nat
  /\ Forall (fun r => List.length r = 22%nat) (skipn 3 (wsDataOf rows))
  /\ List.length (cols (newWorkbook rows)) = 22%nat.
Proof.
  unfold wsDataOf. repeat split.
  - cbn [app List.length]. now rewrite length_map.
  - cbn [app skipn]. constructor; [reflexivity|].
    apply Forall_forall. intros r I. apply in_map_iff in I as (x & <- & _).
    reflexivity.
Qed.

(** ** The keyword scan *)

Module Search.

Lemma prefix_spec k :
  forall s, prefix k s = true <-> exists b, s = k ++ b.
Proof.
  induction k as [|a k IH]; intros s.
  - split; [intros _; now exists s|now destruct s].
  - destruct s as [|c s]; cbn [prefix].
    + split; [discriminate|intros [b E]; discriminate].
    + destruct (ascii_dec a c) as [->|N].
      * rewrite IH. split; intros [b E]; exists b.
        -- now rewrite E.
        -- cbn in E. now inversion E.
      * split; [discriminate|]. intros [b E]. cbn in E. inversion E.
        congruence.
Qed.

(** [includes] finds exactly the substrings. *)
Lemma includes_spec k :
  forall s, JS.includes s k = true <-> exists a b, s = a ++ k ++ b.
Proof.
  induction s as [|c s IH]; cbn [JS.includes].
  - destruct (prefix k "") eqn:P.
    + split; [intros _|reflexivity].
      apply prefix_spec in P as [b E]. now exists "", b.
    + split; [discriminate|]. intros (a & b & E).
      destruct a; [|discriminate]. cbn in E.
      assert (prefix k "" = true) by (apply prefix_spec; now exists b).
      congruence.
  - destruct (prefix k (String c s)) eqn:P.
    + split; [intros _|reflexivity].
      apply prefix_spec in P as [b E]. now exists "", b.
    + rewrite IH. split.
      * intros (a & b & E). exists (String c a), b. cbn. now rewrite E.
      * intros (a & b & E). destruct a as [|c' a].
        -- cbn in E.
           assert (prefix k (String c s) = true)
             by (apply prefix_spec; now exists b).
           congruence.
        -- cbn in E. inversion E. now exists a, b.
Qed.

Lemma append_assoc (a b c : string) : (a ++ b) ++ c = a ++ b ++ c.
Proof. induction a as [|x a IH]; cbn; [reflexivity|now rewrite IH]. Qed.

(** A text that contains a keyword contains the parts of the keyword. *)
Lemma includes_part s k1 k k2 :
  JS.includes s (k1 ++ k ++ k2) = true -> JS.includes s k = true.
Proof.
  intros H. apply includes_spec in H as (a & b & ->).
  apply includes_spec. exists (a ++ k1), (k2 ++ b).
  now rewrite !append_assoc.
Qed.

End Search.

(** X21: the keyword scan counts keywords, not fields: a row with one cell
    whose text contains "telephone", in any case, passes it without naming
    any order id, since that cell contains "phone" as well. *)
Theorem telephone_counts_twice (row : Row) (key : string) (value : Cell) :
  In (key, value) row ->
  JS.includes (JS.toLowerCase (String_ (Some value))) "telephone" = true ->
  keywordMatch row = true.
Proof.
  intros I T.
  assert (P : JS.includes (JS.toLowerCase (String_ (Some value))) "phone" = true)
    by (apply (Search.includes_part _ "tele" "phone" ""); exact T).
  assert (E : forall k,
             JS.includes (JS.toLowerCase (String_ (Some value))) k = true ->
             existsb (fun v => JS.includes v k)
                     (map (fun v => JS.toLowerCase (String_ v)) (values row))
             = true).
  { intros k Hk. apply existsb_exists.
    exists (JS.toLowerCase (String_ (Some value))). split; [|exact Hk].
    apply in_map_iff. exists (Some value). split; [reflexivity|].
    unfold values. apply in_map_iff. now exists (key, value). }
  unfold keywordMatch, matchCount. cbv zeta. cbn [keywords fold_left].
  rewrite (E "phone" P), (E "telephone" T).
  repeat match goal with
         | |- context [existsb ?f ?l] => destruct (existsb f l)
         end; reflexivity.
Qed.

Lemma telephone_counts_twice_witness :
  keywordMatch [("A", CStr "Telephone")] = true.
Proof.
  apply (telephone_counts_twice [("A", CStr "Telephone")] "A" (CStr "Telephone")).
  - now left.
  - reflexivity.
Defined.
